(** * Symptom interview agent (app.py): a shallow embedding and its properties

    The Flask application keeps one global [interview_context], asks a hosted
    language model for follow-up questions and for a final report, and serves
    three JSON endpoints.  This development embeds the Python code of app.py:

    - Python [str] values are sequences of Unicode code points;
    - Python exceptions are explicit: a computation yields [Return v] or
      [Raise e], and the global state it has mutated so far survives a raise;
    - the two library calls whose result the program cannot know, the crew's
      [kickoff()] (the language model) and [json.loads], are parameters: every
      theorem holds for whatever they answer. *)

From Stdlib Require Import String Ascii.
From Stdlib Require Import List ZArith NArith Bool Lia.
From Stdlib Require Import Floats.SpecFloat.
Import ListNotations.

Set Implicit Arguments.

(* ===================================================================== *)
(** ** Python strings *)
(* ===================================================================== *)

(** A Python [str]: its code points, in order. *)
Definition str : Type := list N.

(** The [str] of an ASCII literal of the source. *)
Definition lit (s : string) : str := map N_of_ascii (list_ascii_of_string s).
Arguments lit s%_string.

(** The line feed, the double quote and the markdown fence of the source. *)
Definition nl : str := [10%N].
Definition dq : str := [34%N].
Definition fence : str := [96%N; 96%N; 96%N].

(** A double-quoted word inside a literal of the source. *)
Definition quoted (s : string) : str := dq ++ lit s ++ dq.
Arguments quoted s%_string.

(** [c.isspace()] for one code point: the characters [str.strip()] removes. *)
Definition isspace (c : N) : bool :=
  ((9 <=? c) && (c <=? 13) || (28 <=? c) && (c <=? 32)
   || (c =? 133) || (c =? 160) || (c =? 5760)
   || (8192 <=? c) && (c <=? 8202)
   || (c =? 8232) || (c =? 8233) || (c =? 8239) || (c =? 8287)
   || (c =? 12288))%N.

Fixpoint lstrip (s : str) : str :=
  match s with
  | c :: s' => if isspace c then lstrip s' else s
  | [] => []
  end.

Definition rstrip (s : str) : str := rev (lstrip (rev s)).

(** [s.strip()] *)
Definition strip (s : str) : str := rstrip (lstrip s).

(** [s.startswith(p)] and [s.endswith(p)] *)
Fixpoint startswith (s p : str) : bool :=
  match p, s with
  | [], _ => true
  | _ :: _, [] => false
  | c :: p', d :: s' => (c =? d)%N && startswith s' p'
  end.

Definition endswith (s p : str) : bool := startswith (rev s) (rev p).

(** [s.partition(sep)] for a one-character separator, [None] when [sep] does
    not occur: the text before its first occurrence and the text after it. *)
Fixpoint partition (sep : N) (s : str) : option (str * str) :=
  match s with
  | [] => None
  | c :: s' =>
      if (c =? sep)%N then Some ([], s')
      else match partition sep s' with
           | Some (a, b) => Some (c :: a, b)
           | None => None
           end
  end.

(** [s.split(sep, 1)] and [s.rsplit(sep, 1)] for a one-character separator. *)
Definition split1 (sep : N) (s : str) : list str :=
  match partition sep s with
  | Some (a, b) => [a; b]
  | None => [s]
  end.

Definition rsplit1 (sep : N) (s : str) : list str :=
  match partition sep (rev s) with
  | Some (a, b) => [rev b; rev a]
  | None => [s]
  end.

(** [sep.join(l)] *)
Fixpoint join (sep : str) (l : list str) : str :=
  match l with
  | [] => []
  | [x] => x
  | x :: rest => x ++ sep ++ join sep rest
  end.

(** Equality of two strings, as a boolean. *)
Fixpoint str_eqb (a b : str) : bool :=
  match a, b with
  | [], [] => true
  | c :: a', d :: b' => (c =? d)%N && str_eqb a' b'
  | _, _ => false
  end.

(* ===================================================================== *)
(** ** Python values and exceptions *)
(* ===================================================================== *)

(** The values [json.loads] and [request.get_json()] produce and [jsonify]
    accepts.  A dict is its items in order; [dict_lookup] reads a key. *)
#[local] Set Warnings "-register-all".
Inductive pyval : Type :=
| PNone
| PBool (b : bool)
| PInt (z : Z)
| PFloat (f : spec_float)
| PStr (s : str)
| PList (l : list pyval)
| PDict (items : list (str * pyval)).

(** An exception, as its message [str(e)].  Only subclasses of [Exception]
    are modelled: they are what [except Exception] catches. *)
Definition exn : Type := str.

Inductive outcome (A : Type) : Type :=
| Return (a : A)
| Raise (e : exn).
Arguments Return {A} a.
Arguments Raise {A} e.

Fixpoint dict_lookup (key : str) (items : list (str * pyval)) : option pyval :=
  match items with
  | [] => None
  | (k, v) :: rest => if str_eqb k key then Some v else dict_lookup key rest
  end.

(** [type(v).__name__] *)
Definition type_name (v : pyval) : str :=
  match v with
  | PNone => lit "NoneType"
  | PBool _ => lit "bool"
  | PInt _ => lit "int"
  | PFloat _ => lit "float"
  | PStr _ => lit "str"
  | PList _ => lit "list"
  | PDict _ => lit "dict"
  end.

Definition attribute_error (v : pyval) (attr : string) : exn :=
  lit "'" ++ type_name v ++ lit "' object has no attribute '" ++ lit attr ++ lit "'".
Arguments attribute_error v attr%_string.

(** [data.get(key, default)]: only a dict has the method. *)
Definition py_get (data : pyval) (key : str) (default : pyval) : outcome pyval :=
  match data with
  | PDict items =>
      Return (match dict_lookup key items with Some v => v | None => default end)
  | _ => Raise (attribute_error data "get")
  end.

(** [v.strip()]: only a [str] has the method. *)
Definition py_strip (v : pyval) : outcome str :=
  match v with
  | PStr s => Return (strip s)
  | _ => Raise (attribute_error v "strip")
  end.

(** [l[i]] on a list, negative indices counting from the end. *)
Definition py_getitem {A : Type} (l : list A) (i : Z) : outcome A :=
  let n := Z.of_nat (length l) in
  let j := if (i <? 0)%Z then (i + n)%Z else i in
  if ((j <? 0) || (n <=? j))%Z then Raise (lit "list index out of range")
  else match nth_error l (Z.to_nat j) with
       | Some x => Return x
       | None => Raise (lit "list index out of range")
       end.

(** [f"{v}"] for a value that is a [str] or [None]. *)
Definition format_opt (v : option str) : str :=
  match v with
  | Some s => s
  | None => lit "None"
  end.

(* ===================================================================== *)
(** ** The data model of app.py *)
(* ===================================================================== *)

(** The three values the ['role'] key of a turn takes in the source. *)
Inductive Role : Type := User | Agent | System.

Definition role_eqb (a b : Role) : bool :=
  match a, b with
  | User, User | Agent, Agent | System, System => true
  | _, _ => false
  end.

Definition role_str (r : Role) : str :=
  match r with
  | User => lit "User"
  | Agent => lit "Agent"
  | System => lit "System"
  end.

(** One item of ["conversation_history"]: [{"role": ..., "text": ...}]. *)
Record Turn : Type := { role : Role; text : str }.

(** The global dict [interview_context] (lines 31-36). *)
Record Context : Type := {
  interview_id : Z;
  conversation_history : list Turn;
  is_complete : bool;
  initial_symptom : option str
}.

(** The two CrewAI agents of the source, and a task handed to one of them. *)
Inductive CrewAgent : Type := interviewer_agent | report_agent.

Record Task : Type := {
  description : str;
  expected_output : str;
  agent : CrewAgent
}.

(** What a request handler can read and change: the global context, and the
    tasks kicked off so far in the process (the calls to the model, oldest
    first). *)
Record World : Type := {
  interview_context : Context;
  kickoffs : list Task
}.

(** The module-level initial value of [interview_context]. *)
Definition initial_context : Context :=
  {| interview_id := 1;
     conversation_history := [];
     is_complete := false;
     initial_symptom := None |}.

Definition initial_world : World :=
  {| interview_context := initial_context; kickoffs := [] |}.

(** An HTTP response: [jsonify(body)] with its status code, for a body that
    [jsonify] can serialise.  The bodies the handlers build from strings,
    numbers and the history always can; a body that holds a report goes
    through [jsonify_document] below, since serialising a document may
    raise. *)
Record Response : Type := { status : Z; body : pyval }.

Definition jsonify (b : pyval) : Response := {| status := 200; body := b |}.
Definition jsonify_status (b : pyval) (code : Z) : Response :=
  {| status := code; body := b |}.

(** A turn and a history as [jsonify] sees them. *)
Definition turn_json (t : Turn) : pyval :=
  PDict [(lit "role", PStr (role_str t.(role))); (lit "text", PStr t.(text))].

Definition history_json (h : list Turn) : pyval := PList (map turn_json h).

(** [f"{item['role']}: {item['text']}"] *)
Definition render_turn (t : Turn) : str :=
  role_str t.(role) ++ lit ": " ++ t.(text).

(** [len([item for item in history if item['role'] == 'User'])] *)
Definition user_turn_count (h : list Turn) : Z :=
  Z.of_nat (length (filter (fun item => role_eqb item.(role) User) h)).

(* ===================================================================== *)
(** ** Computations: state, and exceptions that keep the state *)
(* ===================================================================== *)

Definition M (A : Type) : Type := World -> outcome A * World.

Definition ret {A : Type} (a : A) : M A := fun w => (Return a, w).

Definition raise {A : Type} (e : exn) : M A := fun w => (Raise e, w).

Definition bind {A B : Type} (c : M A) (k : A -> M B) : M B :=
  fun w =>
    match c w with
    | (Return a, w') => k a w'
    | (Raise e, w') => (Raise e, w')
    end.

(** [try: c  except Exception as e: handler e] *)
Definition try_except {A : Type} (c : M A) (handler : exn -> M A) : M A :=
  fun w =>
    match c w with
    | (Return a, w') => (Return a, w')
    | (Raise e, w') => handler e w'
    end.

(** A pure step that may raise. *)
Definition lift {A : Type} (o : outcome A) : M A := fun w => (o, w).

Declare Scope py_scope.
Delimit Scope py_scope with py.
Notation "x <- c ;; k" := (bind c (fun x => k))
  (at level 61, c at next level, right associativity) : py_scope.
Notation "c ;; k" := (bind c (fun _ => k))
  (at level 61, right associativity) : py_scope.
Open Scope py_scope.

(** Reading and replacing the global [interview_context]. *)
Definition get_context : M Context := fun w => (Return w.(interview_context), w).

Definition set_context (c : Context) : M unit :=
  fun w => (Return tt, {| interview_context := c; kickoffs := w.(kickoffs) |}).

(** [interview_context["conversation_history"].append(t)] *)
Definition append_turn (t : Turn) : M unit :=
  fun w =>
    let c := w.(interview_context) in
    (Return tt,
     {| interview_context :=
          {| interview_id := c.(interview_id);
             conversation_history := c.(conversation_history) ++ [t];
             is_complete := c.(is_complete);
             initial_symptom := c.(initial_symptom) |};
        kickoffs := w.(kickoffs) |}).

(** [interview_context["is_complete"] = True] *)
Definition mark_complete : M unit :=
  fun w =>
    let c := w.(interview_context) in
    (Return tt,
     {| interview_context :=
          {| interview_id := c.(interview_id);
             conversation_history := c.(conversation_history);
             is_complete := true;
             initial_symptom := c.(initial_symptom) |};
        kickoffs := w.(kickoffs) |}).

(* ===================================================================== *)
(** ** The program *)
(* ===================================================================== *)

(** The fixed texts of the source. *)

(** [interview_steps] (lines 123-128) *)
Definition severity_quality : str :=
  lit "What is the exact location, quality (e.g., sharp, dull), and severity (on a scale of 1-10) of the symptom?".
Definition onset_course : str :=
  lit "When did this symptom first start, and how has it changed over time (e.g., constant, intermittent)?".
Definition modifying_factors : str :=
  lit "What makes the symptom better, and what makes it worse?".
Definition associated_symptoms : str :=
  lit "Are you experiencing any other related symptoms, even minor ones?".

Definition interview_steps : list str :=
  [ severity_quality; onset_course; modifying_factors; associated_symptoms ].

(** The closing prompt (line 140) and the fallback question (line 166). *)
Definition closing_question : str :=
  lit "Is there anything else you think is important for a doctor to know about this symptom or your overall health right now?".

Definition apology : str :=
  lit "I apologize, an error occurred. Can you please summarize your symptoms one more time?".

(** The text of the System turn that ends an interview (line 249). *)
Definition completion_notice : str :=
  lit "The interview is complete. Thank you for your patience. I have generated a structured report for review. Please find the JSON report below.".

(** The opening question of [start_interview] (line 199). *)
Definition opening_question (symptom : str) : str :=
  lit "Thank you for sharing your symptom: '" ++ symptom
  ++ lit "'. To begin, can you tell me when you first noticed this symptom?".

(** The f-string of the question task (lines 143-155). *)
Definition question_description (symptom : option str) (next_q formatted_history : str) : str :=
  join nl
    [ [];
      lit "        Based on the history and the initial symptom ('" ++ format_opt symptom
        ++ lit "'), generate the next single, best follow-up question.";
      lit "        The question MUST be one of the core elements of a standard medical interview (HPI - History of Present Illness) to gather necessary details for the report.";
      lit "        ";
      lit "        The next specific topic to cover is: '" ++ next_q ++ lit "'.";
      lit "        ";
      lit "        Current Conversation History:";
      lit "        ---";
      lit "        " ++ formatted_history;
      lit "        ---";
      lit "        ";
      lit "        Generate ONLY the single question text. Do NOT include a diagnosis or medical advice.";
      lit "        " ].

Definition question_task (symptom : option str) (next_q formatted_history : str) : Task :=
  {| description := question_description symptom next_q formatted_history;
     expected_output := lit "A single, non-diagnostic follow-up question.";
     agent := interviewer_agent |}.

(** The f-string of the report task (lines 70-98). *)
Definition report_description (full_history : str) : str :=
  join nl
    [ [];
      lit "        Generate a structured, non-diagnostic symptom report based on the following conversation history.";
      lit "        The report must follow this exact JSON format. Only include information explicitly mentioned in the history.";
      lit "        ";
      lit "        Conversation History:";
      lit "        ---";
      lit "        " ++ full_history;
      lit "        ---";
      lit "        ";
      lit "        Return ONLY the valid JSON structure without any other text or markdown:";
      lit "        {";
      lit "            " ++ quoted "report_title" ++ lit ": "
        ++ quoted "Symptom Interview Report for [Initial Symptom]" ++ lit ",";
      lit "            " ++ quoted "safety_disclaimer" ++ lit ": "
        ++ quoted "This is a non-diagnostic, AI-generated intake report and is not a substitute for professional medical evaluation."
        ++ lit ",";
      lit "            " ++ quoted "sections" ++ lit ": [";
      lit "                {";
      lit "                    " ++ quoted "heading" ++ lit ": " ++ quoted "Chief Complaint" ++ lit ",";
      lit "                    " ++ quoted "content" ++ lit ": "
        ++ quoted "Patient reports: [Initial Symptom]";
      lit "                },";
      lit "                {";
      lit "                    " ++ quoted "heading" ++ lit ": "
        ++ quoted "History of Present Illness (HPI)" ++ lit ",";
      lit "                    " ++ quoted "content" ++ lit ": "
        ++ quoted "Organize the patient's answers into a clear narrative covering: Onset, Location/Quality, Severity, Duration, Modifying Factors (what makes it better/worse), and Associated Symptoms.";
      lit "                },";
      lit "                {";
      lit "                    " ++ quoted "heading" ++ lit ": "
        ++ quoted "Review of Systems (ROS)" ++ lit ",";
      lit "                    " ++ quoted "content" ++ lit ": "
        ++ quoted "List any other systems/symptoms mentioned by the patient.";
      lit "                }";
      lit "            ]";
      lit "        }";
      lit "        " ].

Definition report_task (full_history : str) : Task :=
  {| description := report_description full_history;
     expected_output := lit "Valid JSON object containing the structured, non-diagnostic symptom report.";
     agent := report_agent |}.

(** [{'error': message}] *)
Definition error_body (message : str) : pyval := PDict [(lit "error", PStr message)].

(** [not s] for a [str]. *)
Definition is_empty (s : str) : bool :=
  match s with
  | [] => true
  | _ :: _ => false
  end.

(** Lines 108-109: when the text starts and ends with the fence, keep what
    follows its first line feed and, of that, what precedes its last one. *)
Definition unwrap_markdown (report_text : str) : outcome str :=
  if startswith report_text fence && endswith report_text fence then
    match py_getitem (split1 10 report_text) 1 with
    | Raise e => Raise e
    | Return rest =>
        match py_getitem (rsplit1 10 rest) 0 with
        | Raise e => Raise e
        | Return inner => Return (strip inner)
        end
    end
  else Return report_text.

(** The three requests the application serves with a handler of its own. *)
Inductive Request : Type :=
| POST_start_interview (request_get_json : outcome pyval)
| POST_continue_interview (request_get_json : outcome pyval)
| GET_get_report.

Section Program.

(** [Crew(agents=[a], tasks=[t]).kickoff()], read through [str(...)]: what
    the model answers to the task, or the exception the call raises.  The
    first argument is the number of tasks kicked off before this one, so
    the same task may be answered differently each time. *)
Variable crew_kickoff : nat -> Task -> outcome str.

(** [json.loads] *)
Variable json_loads : str -> outcome pyval.

(** The exception [jsonify] raises on a body, if it raises one: Flask's
    serialiser gives up with a [RecursionError] on a document nested too
    deeply, also on one that [json.loads] has accepted; at which depth
    depends on the interpreter. *)
Variable jsonify_error : pyval -> option exn.

(** [jsonify(b)] for a body that holds a document of the model. *)
Definition jsonify_document (b : pyval) : M Response :=
  match jsonify_error b with
  | Some e => raise e
  | None => ret (jsonify b)
  end.

Definition kickoff (t : Task) : M str :=
  fun w =>
    (crew_kickoff (length w.(kickoffs)) t,
     {| interview_context := w.(interview_context);
        kickoffs := w.(kickoffs) ++ [t] |}).

(** [generate_report(context)] (lines 63-113) *)
Definition generate_report (context : Context) : M pyval :=
  let full_history := join nl (map render_turn context.(conversation_history)) in
  try_except
    (report_result <- kickoff (report_task full_history) ;;
     let report_text := strip report_result in
     report_text <- lift (unwrap_markdown report_text) ;;
     lift (json_loads report_text))
    (fun e =>
       ret (error_body (lit "Failed to generate structured report: " ++ e))).

(** [get_next_question(history, initial_symptom)] (lines 116-166).  The
    [else] branch of the source returns early: [None] stands for it. *)
Definition get_next_question (history : list Turn) (symptom : option str) : M str :=
  let formatted_history := join nl (map render_turn history) in
  let current_step := user_turn_count history in
  selected <-
    (if (current_step =? 0)%Z then
       next_q <- lift (py_getitem interview_steps 0) ;; ret (Some next_q)
     else if (current_step <=? Z.of_nat (length interview_steps))%Z then
       next_q <- lift (py_getitem interview_steps (current_step - 1)) ;;
       ret (Some next_q)
     else ret None) ;;
  match selected with
  | None => ret closing_question
  | Some next_q =>
      try_except
        (question_result <- kickoff (question_task symptom next_q formatted_history) ;;
         ret (strip question_result))
        (fun _ => ret apology)
  end.

(** [start_interview()] (lines 175-214) *)
Definition start_interview (request_get_json : outcome pyval) : M Response :=
  try_except
    (data <- lift request_get_json ;;
     field <- lift (py_get data (lit "initial_symptom") (PStr [])) ;;
     symptom <- lift (py_strip field) ;;
     if is_empty symptom then
       ret (jsonify_status
              (error_body (lit "Please provide an initial symptom to start the interview."))
              400)
     else
       old <- get_context ;;
       set_context
         {| interview_id := old.(interview_id) + 1;
            conversation_history := [ {| role := User; text := symptom |} ];
            is_complete := false;
            initial_symptom := Some symptom |} ;;
       let initial_question := opening_question symptom in
       append_turn {| role := Agent; text := initial_question |} ;;
       ctx <- get_context ;;
       ret (jsonify
              (PDict [ (lit "interview_id", PInt ctx.(interview_id));
                       (lit "initial_question", PStr initial_question);
                       (lit "history", history_json ctx.(conversation_history)) ])))
    (fun e =>
       ret (jsonify_status
              (error_body (lit "An unexpected error occurred: " ++ e)) 500)).

(** [continue_interview()] (lines 216-283) *)
Definition continue_interview (request_get_json : outcome pyval) : M Response :=
  try_except
    (ctx <- get_context ;;
     if ctx.(is_complete) then
       ret (jsonify_status
              (error_body (lit "Interview is already complete. Please start a new one."))
              400)
     else
       data <- lift request_get_json ;;
       field <- lift (py_get data (lit "user_response") (PStr [])) ;;
       user_response <- lift (py_strip field) ;;
       if is_empty user_response then
         ret (jsonify_status
                (error_body (lit "Please provide a response to continue.")) 400)
       else
         append_turn {| role := User; text := user_response |} ;;
         ctx <- get_context ;;
         if (5 <=? user_turn_count ctx.(conversation_history))%Z then
           mark_complete ;;
           ctx <- get_context ;;
           report <- generate_report ctx ;;
           append_turn {| role := System; text := completion_notice |} ;;
           ctx <- get_context ;;
           jsonify_document
             (PDict [ (lit "interview_id", PInt ctx.(interview_id));
                      (lit "next_question", PNone);
                      (lit "is_complete", PBool true);
                      (lit "structured_report", report);
                      (lit "history", history_json ctx.(conversation_history)) ])
         else
           next_question <-
             get_next_question ctx.(conversation_history) ctx.(initial_symptom) ;;
           append_turn {| role := Agent; text := next_question |} ;;
           ctx <- get_context ;;
           ret (jsonify
                  (PDict [ (lit "interview_id", PInt ctx.(interview_id));
                           (lit "next_question", PStr next_question);
                           (lit "is_complete", PBool false);
                           (lit "history", history_json ctx.(conversation_history)) ])))
    (fun e =>
       mark_complete ;;
       ret (jsonify_status
              (error_body
                 (lit "An unexpected error occurred during the interview process: " ++ e))
              500)).

(** [get_report()] (lines 285-294) *)
Definition get_report : M Response :=
  ctx <- get_context ;;
  if negb ctx.(is_complete) then
    ret (jsonify_status
           (error_body (lit "Interview is not yet complete. Cannot generate report."))
           400)
  else
    report <- generate_report ctx ;;
    jsonify_document report.

(** Flask's dispatch: the handler of the route, and its own 500 page should
    a handler let an exception through (only the status of that page is
    meant: its text is Flask's). *)
Definition handler (r : Request) : M Response :=
  match r with
  | POST_start_interview j => start_interview j
  | POST_continue_interview j => continue_interview j
  | GET_get_report => get_report
  end.

Definition serve (r : Request) (w : World) : Response * World :=
  match handler r w with
  | (Return resp, w') => (resp, w')
  | (Raise _, w') =>
      (jsonify_status (PStr (lit "Internal Server Error")) 500, w')
  end.

(** A process serving requests one after the other (section 5 of the
    specification: requests are handled serially). *)
Fixpoint serve_all (rs : list Request) (w : World) : list Response * World :=
  match rs with
  | [] => ([], w)
  | r :: rest =>
      let (resp, w') := serve r w in
      let (resps, w'') := serve_all rest w' in
      (resp :: resps, w'')
  end.

End Program.

(* ===================================================================== *)
(** ** Vocabulary of the statements *)
(* ===================================================================== *)

(** The request's JSON body is a dict whose field [key] holds the string
    [raw]; a dict without the field carries the empty string, the default of
    [data.get(key, '')]. *)
Definition carries (key : string) (raw : str) (request_get_json : outcome pyval) : Prop :=
  exists data,
    request_get_json = Return data /\
    py_get data (lit key) (PStr []) = Return (PStr raw).
Arguments carries key%_string raw request_get_json.

(** The request whose body is [{key: raw}]. *)
Definition json_body (key : string) (raw : str) : outcome pyval :=
  Return (PDict [(lit key, PStr raw)]).
Arguments json_body key%_string raw.

(** [t] occurs in [s]. *)
Definition contains (s t : str) : Prop := exists before after, s = before ++ t ++ after.

(** A key of a response's JSON object. *)
Definition body_field (key : string) (resp : Response) : option pyval :=
  match resp.(body) with
  | PDict items => dict_lookup (lit key) items
  | _ => None
  end.
Arguments body_field key%_string resp.

(** The items of [report["sections"]], when the report is an object that
    has such a list. *)
Definition report_sections (report : pyval) : option (list pyval) :=
  match report with
  | PDict items =>
      match dict_lookup (lit "sections") items with
      | Some (PList l) => Some l
      | _ => None
      end
  | _ => None
  end.

(** The error object [generate_report] returns in the report's place. *)
Definition report_failure (e : exn) : pyval :=
  error_body (lit "Failed to generate structured report: " ++ e).

(** What [generate_report] makes of the model's answer, step by step: the
    call, the removal of a markdown fence, the parse. *)
Definition report_from (json_loads : str -> outcome pyval) (answer : outcome str) : pyval :=
  match answer with
  | Raise e => report_failure e
  | Return report_result =>
      match unwrap_markdown (strip report_result) with
      | Raise e => report_failure e
      | Return report_text =>
          match json_loads report_text with
          | Raise e => report_failure e
          | Return document => document
          end
      end
  end.

(** The planner's policy in the words of the specification (section 4.2):
    with [n] User turns, topic [n] of the four for [n] from 1 to 4, the
    closing prompt for [n > 4], and topic 1 otherwise. *)
Inductive Selection : Type :=
| Topic (next_q : str)
| Closing.

Definition topic_for (n : Z) : Selection :=
  if ((1 <=? n) && (n <=? 4))%Z then
    match n with
    | 1%Z => Topic severity_quality
    | 2%Z => Topic onset_course
    | 3%Z => Topic modifying_factors
    | _ => Topic associated_symptoms
    end
  else if (4 <? n)%Z then Closing
  else Topic severity_quality.

(** The world after a kickoff of [t]. *)
Definition logged (t : Task) (w : World) : World :=
  {| interview_context := w.(interview_context); kickoffs := w.(kickoffs) ++ [t] |}.

(** The world with another context. *)
Definition with_context (c : Context) (w : World) : World :=
  {| interview_context := c; kickoffs := w.(kickoffs) |}.

(** The context with another history and completion flag. *)
Definition advanced (c : Context) (h : list Turn) (done : bool) : Context :=
  {| interview_id := c.(interview_id);
     conversation_history := h;
     is_complete := done;
     initial_symptom := c.(initial_symptom) |}.

(** The report task of a context, and the report [generate_report] returns
    for it in a world: what [report_from] makes of the model's answer. *)
Definition report_task_of (context : Context) : Task :=
  report_task (join nl (map render_turn context.(conversation_history))).

Definition report_in (crew_kickoff : nat -> Task -> outcome str)
    (json_loads : str -> outcome pyval) (context : Context) (w : World) : pyval :=
  report_from json_loads
    (crew_kickoff (length w.(kickoffs)) (report_task_of context)).

(** The question task of a history about a topic, and the question the
    planner returns for a task in a world: the model's answer trimmed, or
    the fallback when the call raises. *)
Definition question_task_of (history : list Turn) (symptom : option str) (next_q : str) : Task :=
  question_task symptom next_q (join nl (map render_turn history)).

Definition question_in (crew_kickoff : nat -> Task -> outcome str)
    (t : Task) (w : World) : str :=
  match crew_kickoff (length w.(kickoffs)) t with
  | Return question_result => strip question_result
  | Raise _ => apology
  end.

(** The context [start_interview] installs for the trimmed symptom, and its
    reply. *)
Definition started (old : Context) (symptom : str) : Context :=
  {| interview_id := old.(interview_id) + 1;
     conversation_history :=
       [ {| role := User; text := symptom |};
         {| role := Agent; text := opening_question symptom |} ];
     is_complete := false;
     initial_symptom := Some symptom |}.

Definition start_reply (c : Context) (symptom : str) : Response :=
  jsonify
    (PDict [ (lit "interview_id", PInt c.(interview_id));
             (lit "initial_question", PStr (opening_question symptom));
             (lit "history", history_json c.(conversation_history)) ]).

(** The two replies of [continue_interview] that carry the interview on or
    end it, and the history after the user's answer. *)
Definition question_reply (c : Context) (next_question : str) : Response :=
  jsonify
    (PDict [ (lit "interview_id", PInt c.(interview_id));
             (lit "next_question", PStr next_question);
             (lit "is_complete", PBool false);
             (lit "history", history_json c.(conversation_history)) ]).

Definition final_reply (c : Context) (report : pyval) : Response :=
  jsonify
    (PDict [ (lit "interview_id", PInt c.(interview_id));
             (lit "next_question", PNone);
             (lit "is_complete", PBool true);
             (lit "structured_report", report);
             (lit "history", history_json c.(conversation_history)) ]).

Definition answered (c : Context) (user_response : str) : list Turn :=
  c.(conversation_history) ++ [ {| role := User; text := user_response |} ].

(** What a reply and the state behind it look like while the interview is
    collecting answers, and once it is complete. *)
Definition collecting (resp : Response) (w : World) (turns : nat) (users : Z) : Prop :=
  resp.(status) = 200%Z /\
  body_field "is_complete" resp = Some (PBool false) /\
  (exists q, body_field "next_question" resp = Some (PStr q)) /\
  body_field "structured_report" resp = None /\
  body_field "history" resp
    = Some (history_json w.(interview_context).(conversation_history)) /\
  w.(interview_context).(is_complete) = false /\
  length w.(interview_context).(conversation_history) = turns /\
  user_turn_count w.(interview_context).(conversation_history) = users.

Definition completed (resp : Response) (w : World) (turns : nat) (users : Z) : Prop :=
  resp.(status) = 200%Z /\
  body_field "is_complete" resp = Some (PBool true) /\
  body_field "next_question" resp = Some PNone /\
  (exists report, body_field "structured_report" resp = Some report) /\
  body_field "history" resp
    = Some (history_json w.(interview_context).(conversation_history)) /\
  w.(interview_context).(is_complete) = true /\
  length w.(interview_context).(conversation_history) = turns /\
  user_turn_count w.(interview_context).(conversation_history) = users.

(** What an accepted answer adds to the history while the interview goes
    on: the answer as a User turn and the question of the reply as an Agent
    turn. *)
Definition carried_on (before : World) (answer : str) (resp : Response) (w : World) : Prop :=
  exists q,
    body_field "next_question" resp = Some (PStr q) /\
    w.(interview_context).(conversation_history)
    = before.(interview_context).(conversation_history)
        ++ [ {| role := User; text := answer |};
             {| role := Agent; text := q |} ].

(** The state after the answer that completes an interview, whatever the
    reply: [is_complete] is true, and the answer as a User turn and the
    System notice are appended. *)
Definition ended (before : World) (answer : str) (w : World) : Prop :=
  w.(interview_context).(is_complete) = true /\
  w.(interview_context).(conversation_history)
  = before.(interview_context).(conversation_history)
      ++ [ {| role := User; text := answer |};
           {| role := System; text := completion_notice |} ].

(** The number of [/start_interview] requests of a run that were answered
    with 200. *)
Fixpoint successful_starts (rs : list Request) (resps : list Response) : Z :=
  match rs, resps with
  | POST_start_interview _ :: rs', resp :: resps' =>
      ((if (resp.(status) =? 200)%Z then 1 else 0) + successful_starts rs' resps')%Z
  | _ :: rs', _ :: resps' => successful_starts rs' resps'
  | _, _ => 0%Z
  end.

(** Stand-ins for the two library calls in the examples below: a model that
    always answers [text], a model whose call always raises, and a parser
    that knows the empty object and refuses everything else. *)
Definition model_answers (text : str) : nat -> Task -> outcome str :=
  fun _ _ => Return text.

Definition model_raises (e : exn) : nat -> Task -> outcome str :=
  fun _ _ => Raise e.

Definition sample_json_loads (s : str) : outcome pyval :=
  if str_eqb s (lit "{}") then Return (PDict [])
  else Raise (lit "Expecting value: line 1 column 1 (char 0)").

(** How deeply the lists and objects of a value are nested. *)
Fixpoint depth (v : pyval) : nat :=
  match v with
  | PList l => S (fold_right (fun x d => Nat.max (depth x) d) 0%nat l)
  | PDict items =>
      S (fold_right (fun item d => Nat.max (depth (snd item)) d) 0%nat items)
  | _ => 0%nat
  end.

(** A stand-in for the way [jsonify] fails: a serialiser that raises on a
    value nested more than [limit] levels deep, and the one of the examples
    below. *)
Definition recursion_error (limit : nat) (b : pyval) : option exn :=
  if (limit <? depth b)%nat then
    Some (lit "maximum recursion depth exceeded while encoding a JSON object")
  else None.

Definition sample_jsonify_error : pyval -> option exn := recursion_error 990.

(** The document of [n + 1] lists, one inside the other; its text; and a
    stand-in parser that knows such texts and refuses everything else. *)
Fixpoint nested (n : nat) : pyval :=
  match n with
  | O => PList []
  | S k => PList [nested k]
  end.

Definition brackets (n : nat) : str := repeat 91%N (S n) ++ repeat 93%N (S n).

Fixpoint leading (c : N) (s : str) : nat :=
  match s with
  | d :: s' => if (d =? c)%N then S (leading c s') else O
  | [] => O
  end.

Definition bracket_json_loads (s : str) : outcome pyval :=
  match leading 91%N s with
  | S n => if str_eqb s (brackets n) then Return (nested n)
           else Raise (lit "Expecting value: line 1 column 1 (char 0)")
  | O => Raise (lit "Expecting value: line 1 column 1 (char 0)")
  end.

(** The example of the specification: "headache", then four answers; and
    the world a fresh process is in after serving it, the model having
    answered each question task with the same text. *)
Definition example_interview : list Request :=
  [ POST_start_interview (json_body "initial_symptom" (lit "headache"));
    POST_continue_interview (json_body "user_response" (lit "started yesterday"));
    POST_continue_interview (json_body "user_response" (lit "7 out of 10"));
    POST_continue_interview (json_body "user_response" (lit " rest helps "));
    POST_continue_interview (json_body "user_response" (lit "some nausea")) ].

Definition completed_world : World :=
  snd (serve_all (model_answers (lit "Can you tell me more?")) sample_json_loads
         sample_jsonify_error example_interview initial_world).

(* ===================================================================== *)
(** ** Vocabulary of the further properties *)
(* ===================================================================== *)

(** What the three steps [request.get_json()], [data.get(key, '')] and
    [.strip()] of a handler yield for a request: the trimmed field, or the
    exception of the first step that raises. *)
Definition request_field (key : string) (request_get_json : outcome pyval) : outcome str :=
  match request_get_json with
  | Raise e => Raise e
  | Return data =>
      match py_get data (lit key) (PStr []) with
      | Raise e => Raise e
      | Return field => py_strip field
      end
  end.
Arguments request_field key%_string request_get_json.

(** The three ways a request cannot be read, with the exception each one
    raises in the handler: the body itself cannot be read, the body is not a
    JSON object, or the field is there and is not a string. *)
Inductive malformed (key : string) : outcome pyval -> exn -> Prop :=
| unreadable_body (e : exn) :
    malformed key (Raise e) e
| body_not_an_object (data : pyval) :
    (forall items, data <> PDict items) ->
    malformed key (Return data) (attribute_error data "get")
| field_not_a_string (items : list (str * pyval)) (v : pyval) :
    dict_lookup (lit key) items = Some v ->
    (forall s, v <> PStr s) ->
    malformed key (Return (PDict items)) (attribute_error v "strip").
Arguments malformed key%_string _ _.

(** The error replies of the two POST handlers. *)
Definition start_failure (e : exn) : Response :=
  jsonify_status (error_body (lit "An unexpected error occurred: " ++ e)) 500.

Definition continue_failure (e : exn) : Response :=
  jsonify_status
    (error_body (lit "An unexpected error occurred during the interview process: " ++ e))
    500.

(** Flask's own 500 page, as [serve] answers it. *)
Definition flask_error_page : Response :=
  jsonify_status (PStr (lit "Internal Server Error")) 500.

(** The reply of the [/continue_interview] that completes an interview: the
    report reply when [jsonify] serialises it, and the 500 reply of the
    [except] branch with the exception otherwise. *)
Definition completing_reply (jsonify_error : pyval -> option exn)
    (c : Context) (report : pyval) : Response :=
  match jsonify_error (final_reply c report).(body) with
  | None => final_reply c report
  | Some e => continue_failure e
  end.

(** What [get_report] returns for a report: the 200 reply when [jsonify]
    serialises it, and the exception otherwise. *)
Definition report_reply (jsonify_error : pyval -> option exn) (report : pyval) : outcome Response :=
  match jsonify_error report with
  | None => Return (jsonify report)
  | Some e => Raise e
  end.

(** The exception [jsonify] raises, if it raises one, on the reply to the
    answer [user_response] given in the world [w]: only the reply that
    completes an interview holds a document of the model. *)
Definition reply_error (crew_kickoff : nat -> Task -> outcome str)
    (json_loads : str -> outcome pyval) (jsonify_error : pyval -> option exn)
    (w : World) (user_response : str) : option exn :=
  let c := w.(interview_context) in
  let h := answered c user_response in
  if (5 <=? user_turn_count h)%Z then
    let c' :=
      advanced c (h ++ [ {| role := System; text := completion_notice |} ]) true in
    jsonify_error
      (final_reply c' (report_in crew_kickoff json_loads (advanced c h true) w)).(body)
  else None.

(** A transcript made of exchanges: a User turn and the Agent turn that
    answers it, one pair after the other. *)
Definition exchanges (pairs : list (str * str)) : list Turn :=
  flat_map (fun p => [ {| role := User; text := fst p |};
                       {| role := Agent; text := snd p |} ]) pairs.

(** The shape of a context: at most four exchanges, followed, when the
    interview was completed by a fifth answer, by that answer and the System
    notice. *)
Definition well_shaped (c : Context) : Prop :=
  exists pairs,
    (length pairs <= 4)%nat /\
    (c.(conversation_history) = exchanges pairs
     \/ (c.(is_complete) = true /\ length pairs = 4%nat /\
         exists answer,
           c.(conversation_history)
           = exchanges pairs
               ++ [ {| role := User; text := answer |};
                    {| role := System; text := completion_notice |} ])).

(** A text that [strip()] leaves as it is. *)
Definition trimmed (s : str) : Prop := strip s = s.

(** Every turn holds a trimmed text, and no User turn an empty one. *)
Definition tidy (h : list Turn) : Prop :=
  Forall (fun t => trimmed t.(text) /\ (t.(role) = User -> t.(text) <> [])) h.

(** The model calls a reply shows: one for a 200 reply of
    [/continue_interview] or [/get_report], none for a [/start_interview].
    And the most a reply can have cost: one for a reply of
    [/continue_interview] or [/get_report] that is not a 400. *)
Definition model_calls (r : Request) (resp : Response) : nat :=
  match r with
  | POST_start_interview _ => 0
  | POST_continue_interview _ | GET_get_report =>
      if (resp.(status) =? 200)%Z then 1 else 0
  end.

Definition model_calls_at_most (r : Request) (resp : Response) : nat :=
  match r with
  | POST_start_interview _ => 0
  | POST_continue_interview _ | GET_get_report =>
      if (resp.(status) =? 400)%Z then 0 else 1
  end.

Fixpoint total (cost : Request -> Response -> nat)
    (rs : list Request) (resps : list Response) : nat :=
  match rs, resps with
  | r :: rs', resp :: resps' => cost r resp + total cost rs' resps'
  | _, _ => 0
  end.

(** Requests that are not a [/start_interview]. *)
Definition is_start (r : Request) : bool :=
  match r with
  | POST_start_interview _ => true
  | _ => false
  end.

(** A request whose body is the JSON value [data]. *)
Definition json_request (data : pyval) : outcome pyval := Return data.

(** The world of the example after the start and three answers: one more
    answer completes the interview. *)
Definition interviewing_world : World :=
  snd (serve_all (model_answers (lit "Can you tell me more?")) sample_json_loads
         sample_jsonify_error (firstn 4 example_interview) initial_world).

(* ===================================================================== *)
(** ** Proof steps *)
(* ===================================================================== *)

(** Unfolding the monad: what a computation does to a world. *)
Ltac run_py :=
  cbv beta iota zeta delta
    [bind ret raise lift try_except get_context set_context append_turn
     mark_complete kickoff logged with_context advanced is_empty negb
     jsonify_document
     interview_context kickoffs interview_id conversation_history
     is_complete initial_symptom].

(** A world as its fields. *)
Ltac open_world w :=
  let c := fresh "c" in
  let log := fresh "log" in
  destruct w as [c log];
  let id := fresh "id" in
  let h := fresh "h" in
  let done := fresh "done" in
  let sym := fresh "sym" in
  destruct c as [id h done sym]; simpl in *.

(** Entering the body of a function of the program. *)
Ltac enter_continue_interview := unfold continue_interview.
Ltac enter_get_report := unfold get_report.
Ltac enter_serve := unfold serve.
Ltac enter_question_in := unfold question_in.
Ltac enter_report_in := unfold report_in, report_from.
Ltac enter_completing_reply :=
  unfold completing_reply, final_reply, jsonify; simpl body.
Ltac enter_report_reply := unfold report_reply.
Ltac enter_reply_error := unfold reply_error.

(** The two cases of a [jsonify] that may raise. *)
Ltac serialise :=
  match goal with
  | |- context [match ?error with Some _ => _ | None => _ end] =>
      destruct error eqn:?
  end.

(** The cases of one served request, given the equations of the three
    handlers: by the kind of request, the state, and what the request reads
    as. *)
Ltac serve_cases start_run continue_run report_run :=
  enter_serve; simpl handler;
  first
    [ rewrite start_run;
      destruct (request_field _ _) as [[|? ?]|?] eqn:?
    | rewrite continue_run; cbv zeta;
      destruct (is_complete _) eqn:?;
      [| destruct (request_field _ _) as [[|? ?]|?] eqn:?;
         [| destruct (5 <=? _)%Z eqn:?;
            [ enter_completing_reply; serialise
            | destruct (topic_for _) eqn:? ] |] ]
    | rewrite report_run; destruct (is_complete _) eqn:?;
      [ enter_report_reply; serialise |] ].

(** Finding a part in a text written as a concatenation. *)
Ltac find_part contains_here contains_skip :=
  rewrite <- ?app_assoc;
  repeat first [apply contains_here | apply contains_skip].

(** A concrete string is not the empty one. *)
Ltac nonempty := let H := fresh in intro H; vm_compute in H; discriminate H.

(* ===================================================================== *)
(** ** Strings: trimming and splitting *)
(* ===================================================================== *)

Lemma str_eqb_refl (s : str) : str_eqb s s = true.
Proof.
  induction s as [|c s IH]; simpl; [reflexivity|].
  now rewrite N.eqb_refl, IH.
Qed.

Lemma lstrip_blank (s : str) : forallb isspace s = true -> lstrip s = [].
Proof.
  induction s as [|c s IH]; simpl; [reflexivity|].
  intros H. apply andb_true_iff in H as [Hc Hs]. now rewrite Hc, IH.
Qed.

(** What [lstrip] leaves starts with a character that is no white space. *)
Lemma lstrip_head (s : str) (c : N) (rest : str) :
  lstrip s = c :: rest -> isspace c = false.
Proof.
  induction s as [|d s IH]; simpl; [discriminate|].
  destruct (isspace d) eqn:Hd; [exact IH|].
  intros H. inversion H; subst. exact Hd.
Qed.

Lemma lstrip_nil_blank (s : str) : lstrip s = [] -> forallb isspace s = true.
Proof.
  induction s as [|c s IH]; simpl; [reflexivity|].
  destruct (isspace c); [exact IH | discriminate].
Qed.

Lemma forallb_rev (f : N -> bool) (s : str) : forallb f (rev s) = forallb f s.
Proof.
  induction s as [|c s IH]; simpl; [reflexivity|].
  rewrite forallb_app, IH. simpl. rewrite andb_true_r. apply andb_comm.
Qed.

(** [s.strip()] is empty exactly when [s] is empty or all white space. *)
Lemma strip_empty_iff (s : str) : strip s = [] <-> forallb isspace s = true.
Proof.
  unfold strip, rstrip. split.
  - intros H.
    assert (Hl : lstrip (rev (lstrip s)) = []).
    { destruct (lstrip (rev (lstrip s))) as [|c r]; [reflexivity|].
      simpl in H. now destruct (rev r). }
    apply lstrip_nil_blank in Hl. rewrite forallb_rev in Hl.
    destruct (lstrip s) as [|c r] eqn:Hs.
    + now apply lstrip_nil_blank.
    + apply lstrip_head in Hs. simpl in Hl. now rewrite Hs in Hl.
  - intros H. now rewrite (lstrip_blank s H).
Qed.

(** A string that neither starts nor ends with white space is its own trim. *)
Lemma strip_fixed (c d : N) (s : str) :
  isspace c = false -> isspace d = false ->
  strip (c :: s ++ [d]) = c :: s ++ [d] /\ strip [c] = [c].
Proof.
  intros Hc Hd. unfold strip, rstrip. split.
  - simpl lstrip at 2. rewrite Hc.
    change (c :: s ++ [d]) with ((c :: s) ++ [d]) at 1.
    rewrite rev_app_distr. simpl rev at 1. simpl app at 1.
    simpl lstrip. rewrite Hd. simpl. rewrite rev_app_distr, rev_involutive.
    reflexivity.
  - simpl. rewrite Hc. simpl. now rewrite Hc.
Qed.

Lemma partition_first (sep : N) (a b : str) :
  ~ In sep a -> partition sep (a ++ sep :: b) = Some (a, b).
Proof.
  induction a as [|c a IH]; simpl; intros H.
  - now rewrite N.eqb_refl.
  - destruct (N.eqb_spec c sep) as [->|_]; [exfalso; apply H; now left|].
    rewrite IH; [reflexivity|]. intros Hin. apply H. now right.
Qed.

Lemma partition_absent (sep : N) (s : str) :
  ~ In sep s -> partition sep s = None.
Proof.
  induction s as [|c s IH]; simpl; intros H; [reflexivity|].
  destruct (N.eqb_spec c sep) as [->|_]; [exfalso; apply H; now left|].
  rewrite IH; [reflexivity|]. intros Hin. apply H. now right.
Qed.

(** [s.split(sep, 1)] cuts at the first separator, [s.rsplit(sep, 1)] at the
    last one. *)
Lemma split1_first (sep : N) (a b : str) :
  ~ In sep a -> split1 sep (a ++ sep :: b) = [a; b].
Proof. intros H. unfold split1. now rewrite partition_first. Qed.

Lemma rsplit1_last (sep : N) (a b : str) :
  ~ In sep b -> rsplit1 sep (a ++ sep :: b) = [a; b].
Proof.
  intros H. unfold rsplit1.
  rewrite rev_app_distr. simpl rev. rewrite <- app_assoc. simpl app.
  rewrite partition_first by (rewrite <- in_rev; exact H).
  now rewrite !rev_involutive.
Qed.

Lemma rsplit1_absent (sep : N) (s : str) :
  ~ In sep s -> rsplit1 sep s = [s].
Proof.
  intros H. unfold rsplit1.
  now rewrite partition_absent by (rewrite <- in_rev; exact H).
Qed.

(** Lines 108-109 on a text of three lines or more that starts and ends with
    the fence: what lies between the first and the last line feed, trimmed. *)
Lemma unwrap_markdown_fenced (first middle last : str) :
  let report_text := first ++ 10%N :: middle ++ 10%N :: last in
  ~ In 10%N first -> ~ In 10%N last ->
  startswith report_text fence = true ->
  endswith report_text fence = true ->
  unwrap_markdown report_text = Return (strip middle).
Proof.
  intros report_text Hf Hl Hs He. unfold unwrap_markdown.
  rewrite Hs, He. simpl andb. cbv iota.
  unfold report_text. rewrite split1_first by exact Hf.
  change (py_getitem [first; middle ++ 10%N :: last] 1)
    with (Return (middle ++ 10%N :: last)).
  cbv iota. rewrite rsplit1_last by exact Hl. reflexivity.
Qed.

(** On a text of two lines the last line is what is kept, and on a text of
    one line the indexing of line 109 raises. *)
Lemma unwrap_markdown_two_lines (first last : str) :
  let report_text := first ++ 10%N :: last in
  ~ In 10%N first -> ~ In 10%N last ->
  startswith report_text fence = true ->
  endswith report_text fence = true ->
  unwrap_markdown report_text = Return (strip last).
Proof.
  intros report_text Hf Hl Hs He. unfold unwrap_markdown.
  rewrite Hs, He. simpl andb. cbv iota.
  unfold report_text. rewrite split1_first by exact Hf.
  change (py_getitem [first; last] 1) with (Return last).
  cbv iota. rewrite rsplit1_absent by exact Hl. reflexivity.
Qed.

Lemma unwrap_markdown_one_line (report_text : str) :
  ~ In 10%N report_text ->
  startswith report_text fence = true ->
  endswith report_text fence = true ->
  unwrap_markdown report_text = Raise (lit "list index out of range").
Proof.
  intros Hn Hs He. unfold unwrap_markdown.
  rewrite Hs, He. simpl andb. cbv iota.
  unfold split1. rewrite partition_absent by exact Hn. reflexivity.
Qed.

Lemma unwrap_markdown_plain (report_text : str) :
  startswith report_text fence && endswith report_text fence = false ->
  unwrap_markdown report_text = Return report_text.
Proof. intros H. unfold unwrap_markdown. now rewrite H. Qed.

(* ===================================================================== *)
(** ** Requests *)
(* ===================================================================== *)

Lemma carries_json_body (key : string) (raw : str) :
  carries key raw (json_body key raw).
Proof.
  exists (PDict [(lit key, PStr raw)]). split; [reflexivity|].
  unfold py_get, dict_lookup. now rewrite str_eqb_refl.
Qed.

(** A body without the field carries the empty string. *)
Lemma carries_default (key : string) (items : list (str * pyval)) :
  dict_lookup (lit key) items = None ->
  carries key [] (Return (PDict items)).
Proof.
  intros H. exists (PDict items). split; [reflexivity|].
  unfold py_get. now rewrite H.
Qed.

Lemma user_turn_count_app (h : list Turn) (t : Turn) :
  user_turn_count (h ++ [t])
  = (user_turn_count h + (if role_eqb t.(role) User then 1 else 0))%Z.
Proof.
  unfold user_turn_count. rewrite filter_app, length_app. simpl.
  destruct (role_eqb (role t) User); simpl; lia.
Qed.

Lemma user_turn_count_nonneg (h : list Turn) : (0 <= user_turn_count h)%Z.
Proof. unfold user_turn_count. lia. Qed.

(* ===================================================================== *)
(** ** The planner and the synthesizer *)
(* ===================================================================== *)

Section Verification.

Variable crew_kickoff : nat -> Task -> outcome str.
Variable json_loads : str -> outcome pyval.
Variable jsonify_error : pyval -> option exn.

Local Abbreviation generate_report := (generate_report crew_kickoff json_loads).
Local Abbreviation get_next_question := (get_next_question crew_kickoff).
Local Abbreviation continue_interview :=
  (continue_interview crew_kickoff json_loads jsonify_error).
Local Abbreviation get_report := (get_report crew_kickoff json_loads jsonify_error).
Local Abbreviation serve := (serve crew_kickoff json_loads jsonify_error).
Local Abbreviation serve_all := (serve_all crew_kickoff json_loads jsonify_error).
Local Abbreviation report_in := (report_in crew_kickoff json_loads).
Local Abbreviation question_in := (question_in crew_kickoff).
Local Abbreviation completing_reply := (completing_reply jsonify_error).
Local Abbreviation report_reply := (report_reply jsonify_error).

(** [generate_report] kicks off one task, never raises, and returns what
    [report_from] describes. *)
Lemma generate_report_run (context : Context) (w : World) :
  generate_report context w
  = (Return (report_in context w), logged (report_task_of context) w).
Proof.
  unfold generate_report, report_in, report_from, report_task_of.
  run_py.
  destruct (crew_kickoff _ _) as [out|e]; [|reflexivity].
  destruct (unwrap_markdown (strip out)) as [t|e]; [|reflexivity].
  destruct (json_loads t) as [v|e]; reflexivity.
Qed.

(** [get_next_question] follows [topic_for]: the closing prompt with no
    task kicked off, or one task about the selected topic. *)
Lemma get_next_question_run (history : list Turn) (symptom : option str) (w : World) :
  get_next_question history symptom w
  = match topic_for (user_turn_count history) with
    | Closing => (Return closing_question, w)
    | Topic next_q =>
        let t := question_task_of history symptom next_q in
        (Return (question_in t w), logged t w)
    end.
Proof.
  unfold get_next_question, topic_for, question_in, question_task_of.
  pose proof (user_turn_count_nonneg history) as Hn.
  destruct (Z.eqb_spec (user_turn_count history) 0) as [H0|H0].
  - rewrite H0. run_py. simpl.
    destruct (crew_kickoff _ _); reflexivity.
  - change (Z.of_nat (length interview_steps)) with 4%Z.
    destruct (Z.leb_spec (user_turn_count history) 4) as [H4|H4].
    + assert (Hc : user_turn_count history = 1%Z \/ user_turn_count history = 2%Z
                   \/ user_turn_count history = 3%Z \/ user_turn_count history = 4%Z)
        by lia.
      destruct Hc as [Hc|[Hc|[Hc|Hc]]]; rewrite Hc; run_py; simpl;
        destruct (crew_kickoff _ _); reflexivity.
    + destruct (Z.leb_spec 1 (user_turn_count history)); [|lia].
      simpl andb. cbv iota.
      destruct (Z.ltb_spec 4 (user_turn_count history)); [|lia].
      reflexivity.
Qed.

(* ===================================================================== *)
(** ** The handlers *)
(* ===================================================================== *)

Lemma start_interview_accepts (req : outcome pyval) (raw : str) (w : World) :
  carries "initial_symptom" raw req -> strip raw <> [] ->
  start_interview req w
  = (Return (start_reply (started w.(interview_context) (strip raw)) (strip raw)),
     with_context (started w.(interview_context) (strip raw)) w).
Proof.
  intros (data & -> & Hget) Hne.
  unfold start_interview. run_py. rewrite Hget. cbv beta iota. simpl py_strip.
  cbv beta iota. destruct (strip raw) as [|c r] eqn:Hs; [now elim Hne|].
  reflexivity.
Qed.

Lemma start_interview_rejects (req : outcome pyval) (raw : str) (w : World) :
  carries "initial_symptom" raw req -> strip raw = [] ->
  start_interview req w
  = (Return (jsonify_status
               (error_body (lit "Please provide an initial symptom to start the interview."))
               400), w).
Proof.
  intros (data & -> & Hget) He.
  unfold start_interview. run_py. rewrite Hget. cbv beta iota. simpl py_strip.
  cbv beta iota. rewrite He. reflexivity.
Qed.

(** Every [/start_interview] request is answered: with 200 and the next
    interview id, or with 400 or 500 and the world as it was. *)
Lemma start_interview_cases (req : outcome pyval) (w : World) :
  (exists symptom,
     symptom <> [] /\
     start_interview req w
     = (Return (start_reply (started w.(interview_context) symptom) symptom),
        with_context (started w.(interview_context) symptom) w))
  \/ (exists resp,
        start_interview req w = (Return resp, w) /\
        (resp.(status) = 400 \/ resp.(status) = 500)%Z).
Proof.
  unfold start_interview. run_py.
  destruct req as [data|e]; [|right; eexists; split; [reflexivity|now right]].
  cbv beta iota.
  destruct (py_get data (lit "initial_symptom") (PStr [])) as [field|e];
    [|right; eexists; split; [reflexivity|now right]].
  cbv beta iota.
  destruct (py_strip field) as [symptom|e];
    [|right; eexists; split; [reflexivity|now right]].
  cbv beta iota.
  destruct symptom as [|c r].
  - right. eexists. split; [reflexivity|now left].
  - left. exists (c :: r). split; [discriminate|reflexivity].
Qed.

(** Once the interview is complete, [continue_interview] answers 400 whatever
    the request, and changes nothing. *)
Lemma continue_interview_complete (req : outcome pyval) (w : World) :
  w.(interview_context).(is_complete) = true ->
  continue_interview req w
  = (Return (jsonify_status
               (error_body (lit "Interview is already complete. Please start a new one."))
               400), w).
Proof.
  intros Hdone. open_world w. subst done.
  enter_continue_interview. run_py. reflexivity.
Qed.

Lemma continue_interview_rejects (req : outcome pyval) (raw : str) (w : World) :
  w.(interview_context).(is_complete) = false ->
  carries "user_response" raw req -> strip raw = [] ->
  continue_interview req w
  = (Return (jsonify_status
               (error_body (lit "Please provide a response to continue.")) 400), w).
Proof.
  intros Hdone (data & -> & Hget) He. open_world w. subst done.
  enter_continue_interview. run_py. rewrite Hget. cbv beta iota.
  simpl py_strip. cbv beta iota. rewrite He. reflexivity.
Qed.

(** An accepted answer that leaves fewer than five User turns: one question
    is asked about the topic of the count, and appended as an Agent turn. *)
Lemma continue_interview_asks (req : outcome pyval) (raw : str) (w : World) :
  let c := w.(interview_context) in
  let h := answered c (strip raw) in
  c.(is_complete) = false ->
  carries "user_response" raw req -> strip raw <> [] ->
  (user_turn_count h < 5)%Z ->
  exists next_q,
    topic_for (user_turn_count h) = Topic next_q /\
    let t := question_task_of h c.(initial_symptom) next_q in
    let q := question_in t w in
    let c' := advanced c (h ++ [ {| role := Agent; text := q |} ]) false in
    continue_interview req w
    = (Return (question_reply c' q), with_context c' (logged t w)).
Proof.
  intros c h Hdone (data & -> & Hget) Hne Hlt.
  subst c h. open_world w. subst done. unfold answered in *. simpl in *.
  set (h' := h ++ [ {| role := User; text := strip raw |} ]) in *.
  assert (Hpos : (1 <= user_turn_count h')%Z).
  { unfold h'. rewrite user_turn_count_app. simpl.
    pose proof (user_turn_count_nonneg h). lia. }
  destruct (topic_for (user_turn_count h')) as [next_q|] eqn:Htopic.
  2:{ exfalso. unfold topic_for in Htopic.
      destruct (Z.leb_spec 1 (user_turn_count h')); [|lia].
      destruct (Z.leb_spec (user_turn_count h') 4); [|lia].
      simpl in Htopic. now destruct (user_turn_count h') as [|[[|[]|]|[|[]|]|]|]. }
  exists next_q. split; [reflexivity|].
  enter_continue_interview. run_py. rewrite Hget. cbv beta iota.
  simpl py_strip. cbv beta iota.
  destruct (strip raw) as [|ch r] eqn:Hs; [now elim Hne|]. cbv beta iota.
  fold h'.
  destruct (Z.leb_spec 5 (user_turn_count h')); [lia|]. cbv beta iota.
  rewrite get_next_question_run. rewrite Htopic. reflexivity.
Qed.

(** An accepted answer that is the fifth User turn: the interview is marked
    complete, the report is generated from the history that ends with the
    answer, and the System turn is appended after it; the reply is the
    report reply, or the 500 reply when [jsonify] raises on it. *)
Lemma continue_interview_completes (req : outcome pyval) (raw : str) (w : World) :
  let c := w.(interview_context) in
  let h := answered c (strip raw) in
  c.(is_complete) = false ->
  carries "user_response" raw req -> strip raw <> [] ->
  (5 <= user_turn_count h)%Z ->
  let reported := advanced c h true in
  let c' := advanced c (h ++ [ {| role := System; text := completion_notice |} ]) true in
  continue_interview req w
  = (Return (completing_reply c' (report_in reported w)),
     with_context c' (logged (report_task_of reported) w)).
Proof.
  intros c h Hdone (data & -> & Hget) Hne Hge.
  subst c h. open_world w. subst done. unfold answered in *. simpl in *.
  set (h' := h ++ [ {| role := User; text := strip raw |} ]) in *.
  enter_continue_interview. run_py. rewrite Hget. cbv beta iota.
  simpl py_strip. cbv beta iota.
  destruct (strip raw) as [|ch r] eqn:Hs; [now elim Hne|]. cbv beta iota.
  fold h'.
  destruct (Z.leb_spec 5 (user_turn_count h')); [|lia]. cbv beta iota.
  rewrite generate_report_run. run_py. enter_completing_reply.
  destruct (jsonify_error _); reflexivity.
Qed.

(** Every [/continue_interview] request is answered, the interview id stays
    what it was, and a 200 reply carries it. *)
Lemma continue_interview_cases (req : outcome pyval) (w : World) :
  exists resp w',
    continue_interview req w = (Return resp, w') /\
    w'.(interview_context).(interview_id) = w.(interview_context).(interview_id) /\
    (resp.(status) = 200%Z ->
     body_field "interview_id" resp = Some (PInt w.(interview_context).(interview_id))).
Proof.
  open_world w. enter_continue_interview. run_py.
  destruct done;
    [do 2 eexists; split; [reflexivity|split; [reflexivity|discriminate]]|].
  destruct req as [data|e];
    [|do 2 eexists; split; [reflexivity|split; [reflexivity|discriminate]]].
  cbv beta iota.
  destruct (py_get data (lit "user_response") (PStr [])) as [field|e];
    [|do 2 eexists; split; [reflexivity|split; [reflexivity|discriminate]]].
  cbv beta iota.
  destruct (py_strip field) as [[|ch r]|e];
    try (do 2 eexists; split; [reflexivity|split; [reflexivity|discriminate]]).
  cbv beta iota.
  destruct (5 <=? _)%Z; cbv beta iota.
  - rewrite generate_report_run. run_py.
    destruct (jsonify_error _); run_py;
      do 2 eexists; (split; [reflexivity|]); split;
      first [reflexivity | discriminate].
  - rewrite get_next_question_run.
    destruct (topic_for _); run_py;
      do 2 eexists; (split; [reflexivity|]); split; reflexivity.
Qed.

(** [get_report]: 400 and nothing else before completion; after it, one
    report task, and 200 with whatever [generate_report] returns unless
    [jsonify] raises on it: then the exception leaves the handler. *)
Lemma get_report_run (w : World) :
  get_report w
  = if w.(interview_context).(is_complete) then
      (report_reply (report_in w.(interview_context) w),
       logged (report_task_of w.(interview_context)) w)
    else
      (Return (jsonify_status
                 (error_body (lit "Interview is not yet complete. Cannot generate report."))
                 400), w).
Proof.
  open_world w. enter_get_report.
  destruct done; run_py; [|reflexivity].
  rewrite generate_report_run. enter_report_reply.
  destruct (jsonify_error _); reflexivity.
Qed.

(** The two POST handlers let no exception through; [get_report], which has
    no [try] of its own, lets through the one [jsonify] raises. *)
Lemma handler_returns (r : Request) (w : World) :
  is_start r = true \/ (exists req, r = POST_continue_interview req) ->
  exists resp w',
    handler crew_kickoff json_loads jsonify_error r w = (Return resp, w').
Proof.
  destruct r as [req|req|]; simpl; intros Hr.
  - destruct (start_interview_cases req w) as [(s & _ & H)|(resp & H & _)];
      rewrite H; eauto.
  - destruct (continue_interview_cases req w) as (resp & w' & H & _); eauto.
  - destruct Hr as [Hr|(req & Hr)]; discriminate.
Qed.

Lemma serve_handler (r : Request) (w : World) (resp : Response) (w' : World) :
  handler crew_kickoff json_loads jsonify_error r w = (Return resp, w') ->
  serve r w = (resp, w').
Proof. intros H. enter_serve. now rewrite H. Qed.

(** How one request moves the interview id: a start answered with 200 adds
    one, everything else leaves it. *)
Lemma serve_interview_id (r : Request) (w : World) :
  (snd (serve r w)).(interview_context).(interview_id)
  = (w.(interview_context).(interview_id)
     + successful_starts [r] [fst (serve r w)])%Z.
Proof.
  destruct r as [req|req|]; simpl successful_starts.
  - destruct (start_interview_cases req w) as [(s & _ & H)|(resp & H & Hst)];
      rewrite (serve_handler (POST_start_interview req) w H); simpl; [lia|].
    destruct Hst as [-> | ->]; simpl; lia.
  - destruct (continue_interview_cases req w) as (resp & w' & H & Hid & _).
    rewrite (serve_handler (POST_continue_interview req) w H). simpl. lia.
  - enter_serve. simpl handler. rewrite get_report_run. enter_report_reply.
    destruct (is_complete _); [destruct (jsonify_error _)|]; simpl; lia.
Qed.

Lemma serve_all_interview_id (rs : list Request) (w : World) :
  (snd (serve_all rs w)).(interview_context).(interview_id)
  = (w.(interview_context).(interview_id)
     + successful_starts rs (fst (serve_all rs w)))%Z.
Proof.
  revert w. induction rs as [|r rs IH]; intros w; simpl; [lia|].
  pose proof (serve_interview_id r w) as Hr.
  destruct (serve r w) as [resp w1]. simpl in Hr.
  specialize (IH w1). destruct (serve_all rs w1) as [resps w2]. simpl in *.
  rewrite IH, Hr. destruct r; lia.
Qed.

Lemma successful_starts_nonneg (rs : list Request) (resps : list Response) :
  (0 <= successful_starts rs resps)%Z.
Proof.
  revert resps. induction rs as [|r rs IH]; intros [|resp resps]; simpl; try lia.
  - destruct r; lia.
  - specialize (IH resps). destruct r; try assumption.
    destruct (status resp =? 200)%Z; lia.
Qed.

(* ===================================================================== *)
(** ** The turn-completion policy *)
(* ===================================================================== *)

(** One accepted answer while collecting: two turns more, one User turn
    more, and the interview goes on as long as that makes fewer than five. *)
Lemma serve_continue_collecting (req : outcome pyval) (raw : str) (w : World)
    (turns : nat) (users : Z) :
  w.(interview_context).(is_complete) = false ->
  length w.(interview_context).(conversation_history) = turns ->
  user_turn_count w.(interview_context).(conversation_history) = users ->
  carries "user_response" raw req -> strip raw <> [] ->
  (users + 1 < 5)%Z ->
  collecting (fst (serve (POST_continue_interview req) w))
             (snd (serve (POST_continue_interview req) w))
             (turns + 2) (users + 1).
Proof.
  intros Hdone Hlen Hcount Hreq Hne Hlt.
  assert (Hh : user_turn_count (answered w.(interview_context) (strip raw))
               = (users + 1)%Z).
  { unfold answered. rewrite user_turn_count_app, Hcount. reflexivity. }
  destruct (continue_interview_asks w Hdone Hreq Hne) as (next_q & _ & Hrun);
    [lia|].
  cbv zeta in Hrun.
  rewrite (serve_handler (POST_continue_interview req) w Hrun).
  unfold collecting, answered. simpl fst. simpl snd.
  repeat split; try reflexivity.
  - eexists. reflexivity.
  - simpl. rewrite !length_app, Hlen. simpl. lia.
  - simpl. rewrite user_turn_count_app. simpl. unfold answered in Hh. lia.
Qed.

(** What an accepted answer appends while the interview goes on. *)
Lemma serve_continue_carried_on (req : outcome pyval) (raw : str) (w : World) :
  w.(interview_context).(is_complete) = false ->
  carries "user_response" raw req -> strip raw <> [] ->
  (user_turn_count (answered w.(interview_context) (strip raw)) < 5)%Z ->
  carried_on w (strip raw)
    (fst (serve (POST_continue_interview req) w))
    (snd (serve (POST_continue_interview req) w)).
Proof.
  intros Hdone Hreq Hne Hlt.
  destruct (continue_interview_asks w Hdone Hreq Hne Hlt) as (next_q & _ & Hrun).
  cbv zeta in Hrun.
  rewrite (serve_handler (POST_continue_interview req) w Hrun).
  eexists. split; [reflexivity|].
  simpl. unfold answered. now rewrite <- app_assoc.
Qed.

(** The accepted answer that is the fifth User turn: the reply is the
    completing reply, and the state is complete with the answer and the
    System notice appended, whatever [jsonify] does. *)
Lemma serve_continue_completing (req : outcome pyval) (raw : str) (w : World)
    (turns : nat) (users : Z) :
  let c := w.(interview_context) in
  c.(is_complete) = false ->
  length c.(conversation_history) = turns ->
  user_turn_count c.(conversation_history) = users ->
  carries "user_response" raw req -> strip raw <> [] ->
  (5 <= users + 1)%Z ->
  let w' := snd (serve (POST_continue_interview req) w) in
  fst (serve (POST_continue_interview req) w)
  = completing_reply w'.(interview_context)
      (report_in (advanced c (answered c (strip raw)) true) w)
  /\ ended w (strip raw) w'
  /\ length w'.(interview_context).(conversation_history) = (turns + 2)%nat
  /\ user_turn_count w'.(interview_context).(conversation_history) = (users + 1)%Z.
Proof.
  intros c Hdone Hlen Hcount Hreq Hne Hge.
  assert (Hh : user_turn_count (answered c (strip raw)) = (users + 1)%Z).
  { unfold answered. rewrite user_turn_count_app, Hcount. reflexivity. }
  pose proof (continue_interview_completes w Hdone Hreq Hne) as Hrun.
  cbv zeta in Hrun. fold c in Hrun. specialize (Hrun ltac:(lia)).
  rewrite (serve_handler (POST_continue_interview req) w Hrun).
  simpl fst. simpl snd. unfold ended, answered. simpl.
  repeat split.
  - now rewrite <- app_assoc.
  - rewrite !length_app, Hlen. simpl. lia.
  - rewrite user_turn_count_app. simpl. unfold answered in Hh. lia.
Qed.

(** The completing reply when [jsonify] serialises it, and when it raises. *)
Lemma completing_reply_sent (c : Context) (report : pyval) :
  jsonify_error (final_reply c report).(body) = None ->
  completing_reply c report = final_reply c report.
Proof. intros H. enter_completing_reply. simpl in H. now rewrite H. Qed.

Lemma completing_reply_failed (c : Context) (report : pyval) (e : exn) :
  jsonify_error (final_reply c report).(body) = Some e ->
  completing_reply c report = continue_failure e.
Proof. intros H. enter_completing_reply. simpl in H. now rewrite H. Qed.

(** C1 (amended: the completing reply is the report reply when it can be
    serialised).  A session started through [/start_interview] and continued
    with four answers that are non-empty once trimmed: the start leaves a
    history of two turns with one User turn; each of the first three
    continues answers 200 with [is_complete] false and a next question,
    appends the answer and that question, and leaves 4, 6 and 8 turns with
    2, 3 and 4 User turns; the fourth continue, after which the User turns
    are five, marks the context complete, appends the answer and the System
    notice and leaves 10 turns.  Its reply carries [is_complete] true,
    [next_question] null and a [structured_report] when [jsonify] serialises
    it; when [jsonify] raises on it, the reply is the 500 error object of
    the [except] branch.  This holds from every state of the process and
    whatever the model and the parser answer. *)
Theorem interview_completes_on_fifth_user_turn
    (w0 : World) (q0 q1 q2 q3 q4 : outcome pyval) (s a1 a2 a3 a4 : str) :
  carries "initial_symptom" s q0 -> strip s <> [] ->
  carries "user_response" a1 q1 -> strip a1 <> [] ->
  carries "user_response" a2 q2 -> strip a2 <> [] ->
  carries "user_response" a3 q3 -> strip a3 <> [] ->
  carries "user_response" a4 q4 -> strip a4 <> [] ->
  let '(p0, w1) := serve (POST_start_interview q0) w0 in
  let '(p1, w2) := serve (POST_continue_interview q1) w1 in
  let '(p2, w3) := serve (POST_continue_interview q2) w2 in
  let '(p3, w4) := serve (POST_continue_interview q3) w3 in
  let '(p4, w5) := serve (POST_continue_interview q4) w4 in
  let report :=
    report_in (advanced w4.(interview_context)
                 (answered w4.(interview_context) (strip a4)) true) w4 in
  let report_body := (final_reply w5.(interview_context) report).(body) in
  p0.(status) = 200%Z /\
  w1.(interview_context).(is_complete) = false /\
  length w1.(interview_context).(conversation_history) = 2 /\
  user_turn_count w1.(interview_context).(conversation_history) = 1%Z /\
  collecting p1 w2 4 2 /\ carried_on w1 (strip a1) p1 w2 /\
  collecting p2 w3 6 3 /\ carried_on w2 (strip a2) p2 w3 /\
  collecting p3 w4 8 4 /\ carried_on w3 (strip a3) p3 w4 /\
  ended w4 (strip a4) w5 /\
  length w5.(interview_context).(conversation_history) = 10 /\
  user_turn_count w5.(interview_context).(conversation_history) = 5%Z /\
  (jsonify_error report_body = None ->
   completed p4 w5 10 5 /\
   body_field "structured_report" p4 = Some report) /\
  (forall e, jsonify_error report_body = Some e ->
   p4 = continue_failure e /\ p4.(status) = 500%Z).
Proof.
  intros H0 N0 H1 N1 H2 N2 H3 N3 H4 N4.
  rewrite (serve_handler (POST_start_interview q0) w0
             (start_interview_accepts w0 H0 N0)).
  set (w1 := with_context _ w0).
  assert (D1 : w1.(interview_context).(is_complete) = false) by reflexivity.
  assert (L1 : length w1.(interview_context).(conversation_history) = 2)
    by reflexivity.
  assert (U1 : user_turn_count w1.(interview_context).(conversation_history) = 1%Z)
    by reflexivity.
  pose proof (serve_continue_collecting w1 D1 L1 U1 H1 N1 ltac:(lia)) as C1.
  pose proof (@serve_continue_carried_on q1 a1 w1 D1 H1 N1
                ltac:(unfold answered; rewrite user_turn_count_app, U1;
                      simpl; lia)) as A1.
  destruct (serve (POST_continue_interview q1) w1) as [p1 w2].
  simpl fst in *. simpl snd in *.
  pose proof C1 as (_ & _ & _ & _ & _ & D2 & L2 & U2).
  pose proof (serve_continue_collecting w2 D2 L2 U2 H2 N2 ltac:(lia)) as C2.
  pose proof (@serve_continue_carried_on q2 a2 w2 D2 H2 N2
                ltac:(unfold answered; rewrite user_turn_count_app, U2;
                      simpl; lia)) as A2.
  destruct (serve (POST_continue_interview q2) w2) as [p2 w3].
  simpl fst in *. simpl snd in *.
  pose proof C2 as (_ & _ & _ & _ & _ & D3 & L3 & U3).
  pose proof (serve_continue_collecting w3 D3 L3 U3 H3 N3 ltac:(lia)) as C3.
  pose proof (@serve_continue_carried_on q3 a3 w3 D3 H3 N3
                ltac:(unfold answered; rewrite user_turn_count_app, U3;
                      simpl; lia)) as A3.
  destruct (serve (POST_continue_interview q3) w3) as [p3 w4].
  simpl fst in *. simpl snd in *.
  pose proof C3 as (_ & _ & _ & _ & _ & D4 & L4 & U4).
  pose proof (@serve_continue_completing q4 a4 w4 _ _ D4 L4 U4 H4 N4 ltac:(lia))
    as C4.
  cbv zeta in C4.
  destruct (serve (POST_continue_interview q4) w4) as [p4 w5].
  simpl fst in *. simpl snd in *.
  destruct C4 as (R4 & E4 & L5 & U5). cbv zeta.
  repeat match goal with |- _ /\ _ => split end;
    try first [assumption | reflexivity].
  - intros Hok. rewrite (@completing_reply_sent _ _ Hok) in R4. subst p4.
    split; [|reflexivity].
    unfold completed. simpl status.
    repeat match goal with |- _ /\ _ => split end;
      try first [assumption | reflexivity | exact (proj1 E4)].
    eexists. reflexivity.
  - intros e He. rewrite (@completing_reply_failed _ _ e He) in R4. subst p4.
    split; reflexivity.
Qed.

(* ===================================================================== *)
(** ** Starting an interview *)
(* ===================================================================== *)

Lemma opening_question_contains (symptom : str) :
  contains (opening_question symptom) symptom.
Proof.
  exists (lit "Thank you for sharing your symptom: '").
  exists (lit "'. To begin, can you tell me when you first noticed this symptom?").
  reflexivity.
Qed.

(** C2 (amended: the stored symptom is the trimmed one).  For every
    [initial_symptom] that is non-empty once trimmed, and with [S] its trim,
    [/start_interview] answers 200 and replaces the global context by one
    whose id is the previous id plus one, whose history is exactly the User
    turn [S] followed by the Agent turn of the opening question, which
    contains [S], whose [initial_symptom] is [S] and whose [is_complete] is
    false; nothing of the previous history remains, and the model is not
    called. *)
Theorem start_interview_installs_trimmed_symptom
    (req : outcome pyval) (raw : str) (w : World) :
  carries "initial_symptom" raw req -> strip raw <> [] ->
  let S := strip raw in
  let c := w.(interview_context) in
  exists resp w',
    start_interview req w = (Return resp, w') /\
    resp.(status) = 200%Z /\
    body_field "interview_id" resp = Some (PInt (c.(interview_id) + 1)) /\
    body_field "initial_question" resp = Some (PStr (opening_question S)) /\
    body_field "history" resp
      = Some (history_json w'.(interview_context).(conversation_history)) /\
    w'.(interview_context).(interview_id) = (c.(interview_id) + 1)%Z /\
    (c.(interview_id) < w'.(interview_context).(interview_id))%Z /\
    w'.(interview_context).(conversation_history)
      = [ {| role := User; text := S |};
          {| role := Agent; text := opening_question S |} ] /\
    contains (opening_question S) S /\
    w'.(interview_context).(initial_symptom) = Some S /\
    w'.(interview_context).(is_complete) = false /\
    w'.(kickoffs) = w.(kickoffs).
Proof.
  intros Hreq Hne S c.
  do 2 eexists. split; [exact (start_interview_accepts w Hreq Hne)|].
  repeat match goal with |- _ /\ _ => split end; try reflexivity.
  - subst c. simpl. lia.
  - apply opening_question_contains.
Qed.

(* ===================================================================== *)
(** ** The question planner *)
(* ===================================================================== *)

(** C3.  The planner's choice depends on the history only through the number
    [n] of its User turns, and is the policy [topic_for] of the
    specification: for [n > 4] the closing prompt is returned and no task is
    kicked off; otherwise exactly one task is kicked off, about topic [n] of
    [interview_steps] for [n] from 1 to 4 and about topic 1 for [n = 0]. *)
Theorem question_planner_selects_topic_by_user_turns
    (history : list Turn) (symptom : option str) (w : World) :
  get_next_question history symptom w
  = match topic_for (user_turn_count history) with
    | Closing => (Return closing_question, w)
    | Topic next_q =>
        let t := question_task_of history symptom next_q in
        (Return (question_in t w), logged t w)
    end
  /\ interview_steps
     = [severity_quality; onset_course; modifying_factors; associated_symptoms]
  /\ topic_for 0 = Topic severity_quality
  /\ topic_for 1 = Topic severity_quality
  /\ topic_for 2 = Topic onset_course
  /\ topic_for 3 = Topic modifying_factors
  /\ topic_for 4 = Topic associated_symptoms
  /\ (forall n : Z, (1 <= n <= 4)%Z ->
        nth_error (map Topic interview_steps) (Z.to_nat (n - 1))
        = Some (topic_for n))
  /\ (forall n : Z, (4 < n)%Z -> topic_for n = Closing).
Proof.
  split; [apply get_next_question_run|].
  repeat match goal with |- _ /\ _ => split end; try reflexivity.
  - intros n Hn.
    assert (Hc : n = 1%Z \/ n = 2%Z \/ n = 3%Z \/ n = 4%Z) by lia.
    destruct Hc as [->|[->|[->| ->]]]; reflexivity.
  - intros n Hn. unfold topic_for.
    destruct (Z.leb_spec n 4); [lia|]. rewrite andb_false_r.
    destruct (Z.ltb_spec 4 n); [reflexivity|lia].
Qed.

(** C7.  [get_next_question] never raises; and when the task it kicks off
    makes the model call raise, it returns the fixed apology. *)
Theorem question_planner_absorbs_model_failure
    (history : list Turn) (symptom : option str) (w : World) :
  (exists q w', get_next_question history symptom w = (Return q, w')) /\
  (forall (next_q : str) (e : exn),
      topic_for (user_turn_count history) = Topic next_q ->
      crew_kickoff (length w.(kickoffs)) (question_task_of history symptom next_q)
      = Raise e ->
      get_next_question history symptom w
      = (Return apology, logged (question_task_of history symptom next_q) w)).
Proof.
  split.
  - rewrite get_next_question_run. destruct (topic_for _); eauto.
  - intros next_q e Htopic Hraise.
    rewrite get_next_question_run, Htopic. cbv zeta.
    enter_question_in. now rewrite Hraise.
Qed.

(* ===================================================================== *)
(** ** Rejected requests *)
(* ===================================================================== *)

(** C4.  In every state whose [is_complete] is true, [/continue_interview]
    answers 400 whatever the request, be its body well formed or not, and
    leaves the whole state as it was. *)
Theorem continue_on_complete_interview_is_rejected
    (req : outcome pyval) (w : World) :
  w.(interview_context).(is_complete) = true ->
  serve (POST_continue_interview req) w
  = (jsonify_status
       (error_body (lit "Interview is already complete. Please start a new one."))
       400, w)
  /\ (fst (serve (POST_continue_interview req) w)).(status) = 400%Z
  /\ snd (serve (POST_continue_interview req) w) = w.
Proof.
  intros Hdone.
  rewrite (serve_handler (POST_continue_interview req) w
             (continue_interview_complete req w Hdone)).
  repeat split.
Qed.

(** C9.  In every state, a [/start_interview] or [/continue_interview]
    request whose field is empty or all white space (or absent) is answered
    with 400 and an error message, and the state is left as it was. *)
Theorem blank_field_is_rejected_without_mutation
    (req : outcome pyval) (raw : str) (w : World) :
  forallb isspace raw = true ->
  (carries "initial_symptom" raw req ->
   exists message,
     serve (POST_start_interview req) w
     = (jsonify_status (error_body message) 400, w)) /\
  (carries "user_response" raw req ->
   exists message,
     serve (POST_continue_interview req) w
     = (jsonify_status (error_body message) 400, w)).
Proof.
  intros Hblank. apply strip_empty_iff in Hblank. split; intros Hreq.
  - eexists.
    exact (serve_handler (POST_start_interview req) w
             (start_interview_rejects w Hreq Hblank)).
  - destruct (is_complete (interview_context w)) eqn:Hdone.
    + eexists.
      exact (serve_handler (POST_continue_interview req) w
               (continue_interview_complete req w Hdone)).
    + eexists.
      exact (serve_handler (POST_continue_interview req) w
               (continue_interview_rejects w Hdone Hreq Hblank)).
Qed.

(** C5 (amended: the call is not refused for lack of a session).  As long
    as no [/start_interview] of the process has succeeded, the context
    [/continue_interview] works on is the initial one as the requests served
    so far have left it, with interview id 1, and the call is handled as on
    any session.  With an answer that is non-empty once trimmed: while that
    context is complete the call is refused with 400 as on any complete
    interview; while it is not, the answer is appended as a User turn, and
    the call is answered with 200 and interview id 1, with a question while
    fewer than five User turns are on record, and with the report on the
    fifth, provided [jsonify] serialises that reply. *)
Theorem continue_before_any_start_is_served
    (rs : list Request) (req : outcome pyval) (raw : str) :
  let w := snd (serve_all rs initial_world) in
  let c := w.(interview_context) in
  let h := answered c (strip raw) in
  let resp := fst (serve (POST_continue_interview req) w) in
  let w' := snd (serve (POST_continue_interview req) w) in
  let report := report_in (advanced c h true) w in
  successful_starts rs (fst (serve_all rs initial_world)) = 0%Z ->
  carries "user_response" raw req -> strip raw <> [] ->
  c.(interview_id) = 1%Z
  /\ (c.(is_complete) = true ->
      resp = jsonify_status
               (error_body (lit "Interview is already complete. Please start a new one."))
               400
      /\ w' = w)
  /\ (c.(is_complete) = false -> (user_turn_count h < 5)%Z ->
      resp.(status) = 200%Z
      /\ body_field "interview_id" resp = Some (PInt 1)
      /\ body_field "is_complete" resp = Some (PBool false)
      /\ carried_on w (strip raw) resp w'
      /\ w'.(interview_context).(is_complete) = false)
  /\ (c.(is_complete) = false -> (5 <= user_turn_count h)%Z ->
      ended w (strip raw) w'
      /\ resp = completing_reply w'.(interview_context) report
      /\ (jsonify_error (final_reply w'.(interview_context) report).(body) = None ->
          resp.(status) = 200%Z
          /\ body_field "interview_id" resp = Some (PInt 1)
          /\ body_field "is_complete" resp = Some (PBool true)
          /\ body_field "structured_report" resp = Some report)).
Proof.
  intros w c h resp w' report Hnone Hreq Hne.
  assert (Hid : c.(interview_id) = 1%Z).
  { pose proof (serve_all_interview_id rs initial_world) as H.
    rewrite Hnone in H. exact H. }
  split; [exact Hid|]. split; [|split].
  - intros Hdone. subst resp w'.
    rewrite (serve_handler (POST_continue_interview req) w
               (continue_interview_complete req w Hdone)).
    split; reflexivity.
  - intros Hdone Hlt.
    destruct (continue_interview_asks w Hdone Hreq Hne Hlt)
      as (next_q & _ & Hrun).
    cbv zeta in Hrun. subst resp w'.
    rewrite (serve_handler (POST_continue_interview req) w Hrun).
    simpl fst. simpl snd. fold c. fold h.
    split; [reflexivity|].
    split; [unfold body_field; simpl; now rewrite Hid|].
    split; [reflexivity|]. split; [|reflexivity].
    eexists. split; [reflexivity|].
    simpl. unfold h, answered. now rewrite <- app_assoc.
  - intros Hdone Hge.
    pose proof (continue_interview_completes w Hdone Hreq Hne Hge) as Hrun.
    cbv zeta in Hrun. subst resp w'.
    rewrite (serve_handler (POST_continue_interview req) w Hrun).
    simpl fst. simpl snd. fold c. fold h. fold report.
    split; [|split; [reflexivity|]].
    + split; [reflexivity|]. simpl. unfold h, answered. now rewrite <- app_assoc.
    + intros Hok. apply completing_reply_sent in Hok.
      change (interview_context (with_context ?x ?y)) with x in Hok.
      rewrite Hok.
      split; [reflexivity|].
      split; [unfold body_field; simpl; now rewrite Hid|].
      split; reflexivity.
Qed.

(* ===================================================================== *)
(** ** Reports *)
(* ===================================================================== *)

(** C8 (amended: the removal of the fence can fail too, and it drops the
    first and last lines of a text of three lines or more).
    [generate_report] never raises and kicks off one task.  When the model
    call raises, when the removal of the fence raises, or when the parse
    raises, it returns the error object with the cause; otherwise it returns
    the parsed document.  The text parsed is the trimmed answer of the model
    when that does not both start and end with the fence; when it does and
    has two line feeds or more, it is what lies between the first and the
    last line feed, trimmed. *)
Theorem generate_report_absorbs_failures (context : Context) (w : World) :
  let answer := crew_kickoff (length w.(kickoffs)) (report_task_of context) in
  let parsed text :=
    match json_loads text with
    | Return document => document
    | Raise e => report_failure e
    end in
  generate_report context w
  = (Return (report_in context w), logged (report_task_of context) w)
  /\ (forall e, answer = Raise e -> report_in context w = report_failure e)
  /\ (forall out e,
        answer = Return out -> unwrap_markdown (strip out) = Raise e ->
        report_in context w = report_failure e)
  /\ (forall out text,
        answer = Return out -> unwrap_markdown (strip out) = Return text ->
        report_in context w = parsed text)
  /\ (forall out,
        answer = Return out ->
        startswith (strip out) fence && endswith (strip out) fence = false ->
        report_in context w = parsed (strip out))
  /\ (forall out first middle last,
        answer = Return out ->
        strip out = first ++ 10%N :: middle ++ 10%N :: last ->
        ~ In 10%N first -> ~ In 10%N last ->
        startswith (strip out) fence = true ->
        endswith (strip out) fence = true ->
        report_in context w = parsed (strip middle)).
Proof.
  intros answer parsed. split; [apply generate_report_run|].
  enter_report_in. fold answer.
  repeat match goal with |- _ /\ _ => split end.
  - intros e ->. reflexivity.
  - intros out e -> ->. reflexivity.
  - intros out text -> ->. unfold parsed. now destruct (json_loads text).
  - intros out -> Hplain. rewrite (unwrap_markdown_plain _ Hplain).
    unfold parsed. now destruct (json_loads (strip out)).
  - intros out first middle last -> Hout Hf Hl Hs He.
    rewrite Hout in *.
    rewrite (unwrap_markdown_fenced first middle last Hf Hl Hs He).
    unfold parsed. now destruct (json_loads (strip middle)).
Qed.

(** C6 (amended: the report is returned as synthesized, nothing checks its
    sections, and it is returned when it can be serialised).  [/get_report]
    answers 400 and changes nothing whenever [is_complete] is false.
    Whenever it is true it kicks off the report task, and what
    [generate_report] returns for the current history is the document parsed
    from the model's answer, whatever its shape, or the error object when
    the model call, the removal of the fence or the parse raises; when
    [jsonify] serialises it, the answer is 200 with it.  When [jsonify]
    raises on it, the exception leaves the handler, which has no [try], and
    the answer is the server's 500. *)
Theorem get_report_returns_what_was_synthesized (w : World) :
  let c := w.(interview_context) in
  (c.(is_complete) = false ->
   serve GET_get_report w
   = (jsonify_status
        (error_body (lit "Interview is not yet complete. Cannot generate report."))
        400, w))
  /\ (c.(is_complete) = true ->
      (snd (serve GET_get_report w)) = logged (report_task_of c) w
      /\ (jsonify_error (report_in c w) = None ->
          serve GET_get_report w
          = (jsonify (report_in c w), logged (report_task_of c) w)
          /\ (jsonify (report_in c w)).(status) = 200%Z)
      /\ (forall e, jsonify_error (report_in c w) = Some e ->
          get_report w = (Raise e, logged (report_task_of c) w)
          /\ (fst (serve GET_get_report w)).(status) = 500%Z)
      /\ ((exists text, json_loads text = Return (report_in c w))
          \/ (exists e, report_in c w = report_failure e))).
Proof.
  intros c. enter_serve. simpl handler. rewrite get_report_run.
  fold c. split; intros ->; [reflexivity|]. enter_report_reply.
  split; [now destruct (jsonify_error _)|].
  split; [intros ->; split; reflexivity|].
  split; [intros e ->; split; reflexivity|].
  enter_report_in.
  destruct (crew_kickoff _ _) as [out|e]; [|right; eauto].
  destruct (unwrap_markdown (strip out)) as [text|e]; [|right; eauto].
  destruct (json_loads text) as [document|e] eqn:Hparse; [left|right]; eauto.
Qed.

(* ===================================================================== *)
(** ** Interview ids *)
(* ===================================================================== *)

(** C10 (amended: id 1 is returned by [/continue_interview] until the first
    successful start).  The initial context carries id 1.  After any run of
    requests from a fresh process in which [k] starts were answered with
    200, the context carries id [k + 1]; the next successful
    [/start_interview] returns [k + 2], so the first returns 2, the [j]-th
    returns [j + 1], and none returns 1; a successful [/continue_interview]
    returns [k + 1], which is 1 exactly while no start has succeeded. *)
Theorem interview_ids_count_successful_starts
    (rs : list Request) (req : outcome pyval) :
  let k := successful_starts rs (fst (serve_all rs initial_world)) in
  let w := snd (serve_all rs initial_world) in
  let started_reply := fst (serve (POST_start_interview req) w) in
  let continued_reply := fst (serve (POST_continue_interview req) w) in
  initial_context.(interview_id) = 1%Z
  /\ (0 <= k)%Z
  /\ w.(interview_context).(interview_id) = (k + 1)%Z
  /\ (started_reply.(status) = 200%Z ->
      body_field "interview_id" started_reply = Some (PInt (k + 2)))
  /\ (continued_reply.(status) = 200%Z ->
      body_field "interview_id" continued_reply = Some (PInt (k + 1))).
Proof.
  intros k w started_reply continued_reply.
  assert (Hid : w.(interview_context).(interview_id) = (k + 1)%Z).
  { pose proof (serve_all_interview_id rs initial_world) as H.
    change (interview_id (interview_context initial_world)) with 1%Z in H.
    fold w k in H. lia. }
  split; [reflexivity|]. split; [apply successful_starts_nonneg|].
  split; [exact Hid|]. split.
  - subst started_reply.
    destruct (start_interview_cases req w) as [(s & _ & H)|(resp & H & Hst)];
      rewrite (serve_handler (POST_start_interview req) w H); simpl fst.
    + intros _. unfold start_reply, body_field. simpl. rewrite Hid.
      do 2 f_equal. lia.
    + destruct Hst as [-> | ->]; discriminate.
  - subst continued_reply.
    destruct (continue_interview_cases req w) as (resp & w' & H & _ & Hbody).
    rewrite (serve_handler (POST_continue_interview req) w H). simpl fst.
    intros Hok. rewrite (Hbody Hok), Hid. reflexivity.
Qed.

End Verification.

(* ===================================================================== *)
(** ** The theorems at concrete inputs *)
(* ===================================================================== *)

(** C1 at the example of the specification: "headache", then four answers;
    the report is an error object, which the serialiser accepts. *)
Lemma interview_completes_on_fifth_user_turn_witness :
  let serve :=
    serve (model_answers (lit "  How severe is it?")) sample_json_loads
          sample_jsonify_error in
  let '(p0, w1) :=
    serve (POST_start_interview (json_body "initial_symptom" (lit "headache")))
          initial_world in
  let '(p1, w2) :=
    serve (POST_continue_interview (json_body "user_response" (lit "started yesterday")))
          w1 in
  let '(p2, w3) :=
    serve (POST_continue_interview (json_body "user_response" (lit "7 out of 10"))) w2 in
  let '(p3, w4) :=
    serve (POST_continue_interview (json_body "user_response" (lit " rest helps "))) w3 in
  let '(p4, w5) :=
    serve (POST_continue_interview (json_body "user_response" (lit "some nausea"))) w4 in
  p0.(status) = 200%Z /\
  w1.(interview_context).(is_complete) = false /\
  length w1.(interview_context).(conversation_history) = 2 /\
  user_turn_count w1.(interview_context).(conversation_history) = 1%Z /\
  collecting p1 w2 4 2 /\
  collecting p2 w3 6 3 /\
  collecting p3 w4 8 4 /\
  ended w4 (lit "some nausea") w5 /\
  completed p4 w5 10 5.
Proof.
  generalize
    (@interview_completes_on_fifth_user_turn
       (model_answers (lit "  How severe is it?")) sample_json_loads
       sample_jsonify_error
       initial_world _ _ _ _ _ _ _ _ _ _
       (carries_json_body "initial_symptom" (lit "headache")) ltac:(nonempty)
       (carries_json_body "user_response" (lit "started yesterday")) ltac:(nonempty)
       (carries_json_body "user_response" (lit "7 out of 10")) ltac:(nonempty)
       (carries_json_body "user_response" (lit " rest helps ")) ltac:(nonempty)
       (carries_json_body "user_response" (lit "some nausea")) ltac:(nonempty)).
  vm_compute.
  intros (H0 & D1 & L1 & U1 & C1 & _ & C2 & _ & C3 & _ & E4 & _ & _ & Hsent & _).
  pose proof (proj1 (Hsent eq_refl)) as C4.
  exact (conj H0 (conj D1 (conj L1 (conj U1 (conj C1 (conj C2 (conj C3
           (conj E4 C4)))))))).
Defined.

(** C1 as stated fails: a session started and continued with four non-empty
    answers, a model whose report is a document of 993 lists one inside the
    other, which the parser accepts and the serialiser refuses.  The fourth
    continue makes the User turns five and marks the context complete, with
    10 turns on record, and its reply is the 500 error object: it carries no
    [is_complete], no [next_question] and no [structured_report]. *)
Lemma completing_reply_can_be_an_error :
  let serve :=
    serve (model_answers (brackets 992)) bracket_json_loads sample_jsonify_error in
  let '(p0, w1) :=
    serve (POST_start_interview (json_body "initial_symptom" (lit "headache")))
          initial_world in
  let '(p1, w2) :=
    serve (POST_continue_interview (json_body "user_response" (lit "started yesterday")))
          w1 in
  let '(p2, w3) :=
    serve (POST_continue_interview (json_body "user_response" (lit "7 out of 10"))) w2 in
  let '(p3, w4) :=
    serve (POST_continue_interview (json_body "user_response" (lit " rest helps "))) w3 in
  let '(p4, w5) :=
    serve (POST_continue_interview (json_body "user_response" (lit "some nausea"))) w4 in
  bracket_json_loads (brackets 992) = Return (nested 992) /\
  depth (nested 992) = 993 /\
  p0.(status) = 200%Z /\
  p1.(status) = 200%Z /\ p2.(status) = 200%Z /\ p3.(status) = 200%Z /\
  w4.(interview_context).(is_complete) = false /\
  user_turn_count w4.(interview_context).(conversation_history) = 4%Z /\
  w5.(interview_context).(is_complete) = true /\
  user_turn_count w5.(interview_context).(conversation_history) = 5%Z /\
  length w5.(interview_context).(conversation_history) = 10 /\
  p4.(status) = 500%Z /\
  body_field "is_complete" p4 = None /\
  body_field "next_question" p4 = None /\
  body_field "structured_report" p4 = None /\
  body_field "error" p4
  = Some (PStr (lit "An unexpected error occurred during the interview process: maximum recursion depth exceeded while encoding a JSON object")).
Proof. vm_compute. repeat split. Qed.

(** C2 at a symptom with surrounding blanks, sent while another interview
    is on record. *)
Lemma start_interview_installs_trimmed_symptom_witness :
  strip (lit "  sore throat ") = lit "sore throat" /\
  exists resp w',
    start_interview (json_body "initial_symptom" (lit "  sore throat ")) completed_world
    = (Return resp, w') /\
    resp.(status) = 200%Z /\
    w'.(interview_context).(interview_id) = 3%Z /\
    w'.(interview_context).(conversation_history)
    = [ {| role := User; text := lit "sore throat" |};
        {| role := Agent; text := opening_question (lit "sore throat") |} ] /\
    w'.(interview_context).(initial_symptom) = Some (lit "sore throat") /\
    w'.(interview_context).(is_complete) = false.
Proof.
  split; [reflexivity|].
  destruct (@start_interview_installs_trimmed_symptom
              (json_body "initial_symptom" (lit "  sore throat "))
              (lit "  sore throat ") completed_world
              (carries_json_body "initial_symptom" (lit "  sore throat "))
              ltac:(nonempty))
    as (resp & w' & Hrun & Hst & _ & _ & _ & Hid & _ & Hh & _ & Hsym & Hdone & _).
  exists resp, w'. repeat split; assumption.
Defined.

(** C2 as stated fails on a symptom that starts with a blank: the User turn
    and the recorded symptom hold its trim, not the symptom. *)
Lemma start_interview_stores_trim_not_symptom :
  let raw := lit " headache" in
  let w' := snd (start_interview (json_body "initial_symptom" raw) initial_world) in
  strip raw <> [] /\
  w'.(interview_context).(conversation_history)
  = [ {| role := User; text := lit "headache" |};
      {| role := Agent; text := opening_question (lit "headache") |} ] /\
  w'.(interview_context).(conversation_history)
  <> [ {| role := User; text := raw |};
       {| role := Agent; text := opening_question raw |} ] /\
  w'.(interview_context).(initial_symptom) = Some (lit "headache") /\
  w'.(interview_context).(initial_symptom) <> Some raw.
Proof.
  cbv zeta. split; [nonempty|]. split; [reflexivity|].
  split; [vm_compute; discriminate|]. split; [reflexivity|].
  vm_compute; discriminate.
Qed.

(** C3 at a history of seven User turns: the closing prompt. *)
Lemma question_planner_selects_topic_by_user_turns_witness :
  (4 < 7)%Z /\ topic_for 7 = Closing.
Proof.
  split; [reflexivity|].
  destruct (@question_planner_selects_topic_by_user_turns
              (model_raises (lit "model unavailable")) [] None initial_world)
    as (_ & _ & _ & _ & _ & _ & _ & _ & Hclosing).
  apply Hclosing. reflexivity.
Defined.

(** C4 at the completed interview. *)
Lemma continue_on_complete_interview_is_rejected_witness :
  let request := POST_continue_interview (json_body "user_response" (lit "one more thing")) in
  let served :=
    serve (model_answers (lit "Anything else?")) sample_json_loads sample_jsonify_error
          request completed_world in
  completed_world.(interview_context).(is_complete) = true
  /\ (fst served).(status) = 400%Z
  /\ snd served = completed_world.
Proof.
  cbv zeta. split; [reflexivity|].
  exact (proj2 (@continue_on_complete_interview_is_rejected
                  (model_answers (lit "Anything else?")) sample_json_loads
                  sample_jsonify_error
                  (json_body "user_response" (lit "one more thing"))
                  completed_world eq_refl)).
Defined.

(** C5 at a process whose first two requests are continues: the second is
    answered with 200 and interview id 1, like the first. *)
Lemma continue_before_any_start_is_served_witness :
  let model := model_answers (lit "Where does it hurt?") in
  let first := POST_continue_interview (json_body "user_response" (lit "it hurts")) in
  let served := serve_all model sample_json_loads sample_jsonify_error [first] initial_world in
  let resp :=
    fst (serve model sample_json_loads sample_jsonify_error
           (POST_continue_interview (json_body "user_response" (lit "since monday")))
           (snd served)) in
  successful_starts [first] (fst served) = 0%Z
  /\ strip (lit "since monday") <> []
  /\ resp.(status) = 200%Z
  /\ body_field "interview_id" resp = Some (PInt 1)
  /\ body_field "is_complete" resp = Some (PBool false).
Proof.
  cbv zeta. split; [vm_compute; reflexivity|]. split; [nonempty|].
  destruct (@continue_before_any_start_is_served
              (model_answers (lit "Where does it hurt?")) sample_json_loads
              sample_jsonify_error
              [POST_continue_interview (json_body "user_response" (lit "it hurts"))]
              (json_body "user_response" (lit "since monday")) (lit "since monday")
              ltac:(vm_compute; reflexivity)
              (carries_json_body "user_response" (lit "since monday"))
              ltac:(nonempty))
    as (_ & _ & Hasked & _).
  destruct Hasked as (Hst & Hid & Hgoes & _);
    [vm_compute; reflexivity | vm_compute; reflexivity |].
  repeat split; assumption.
Defined.

(** C5 as stated fails: before any start, a continue is answered with 200,
    interview id 1 and a question, and the answer is on record. *)
Lemma continue_before_any_start_succeeds :
  let request := POST_continue_interview (json_body "user_response" (lit "it hurts")) in
  let served :=
    serve (model_answers (lit "Where does it hurt?")) sample_json_loads
          sample_jsonify_error request initial_world in
  initial_world.(kickoffs) = []
  /\ initial_world.(interview_context).(conversation_history) = []
  /\ (fst served).(status) = 200%Z
  /\ body_field "error" (fst served) = None
  /\ body_field "interview_id" (fst served) = Some (PInt 1)
  /\ body_field "next_question" (fst served) = Some (PStr (lit "Where does it hurt?"))
  /\ (snd served).(interview_context).(conversation_history)
     = [ {| role := User; text := lit "it hurts" |};
         {| role := Agent; text := lit "Where does it hurt?" |} ].
Proof. cbv zeta. repeat split. Qed.

(** C6 at the completed interview, with a model that answers the empty
    object. *)
Lemma get_report_returns_what_was_synthesized_witness :
  let served :=
    serve (model_answers (lit "{}")) sample_json_loads sample_jsonify_error
          GET_get_report completed_world in
  completed_world.(interview_context).(is_complete) = true
  /\ sample_jsonify_error (PDict []) = None
  /\ (fst served).(status) = 200%Z
  /\ (fst served).(body) = PDict [].
Proof.
  cbv zeta. split; [reflexivity|]. split; [reflexivity|].
  destruct (proj2 (@get_report_returns_what_was_synthesized
                     (model_answers (lit "{}")) sample_json_loads
                     sample_jsonify_error completed_world)
                  eq_refl)
    as (_ & Hsent & _).
  destruct (Hsent ltac:(vm_compute; reflexivity)) as (Hrun & Hst).
  rewrite Hrun. split; [exact Hst|reflexivity].
Defined.

(** C6 as stated fails: the interview is complete, the model answers a bare
    fence, and [/get_report] answers 200 with an error object that has no
    sections, whatever the parser. *)
Lemma get_report_serves_error_object :
  let served json_loads :=
    serve (model_answers fence) json_loads sample_jsonify_error GET_get_report
          completed_world in
  completed_world.(interview_context).(is_complete) = true
  /\ (forall json_loads,
        (fst (served json_loads)).(status) = 200%Z
        /\ (fst (served json_loads)).(body)
           = error_body
               (lit "Failed to generate structured report: list index out of range")
        /\ report_sections (fst (served json_loads)).(body) = None).
Proof. cbv zeta. split; [reflexivity|]. intros json_loads. repeat split. Qed.

(** C7 at an empty history, with a model whose call raises. *)
Lemma question_planner_absorbs_model_failure_witness :
  topic_for (user_turn_count []) = Topic severity_quality
  /\ get_next_question (model_raises (lit "model unavailable")) [] None initial_world
     = (Return apology,
        logged (question_task_of [] None severity_quality) initial_world).
Proof.
  split; [reflexivity|].
  exact (proj2 (@question_planner_absorbs_model_failure
                  (model_raises (lit "model unavailable")) [] None initial_world)
               severity_quality (lit "model unavailable") eq_refl eq_refl).
Defined.

(** C8 at an answer wrapped in a fence of three lines. *)
Lemma generate_report_absorbs_failures_witness :
  let out := fence ++ lit "json" ++ nl ++ lit "{}" ++ nl ++ fence in
  startswith (strip out) fence = true
  /\ endswith (strip out) fence = true
  /\ report_in (model_answers out) sample_json_loads initial_context initial_world
     = PDict [].
Proof.
  cbv zeta. split; [reflexivity|]. split; [reflexivity|].
  destruct (@generate_report_absorbs_failures
              (model_answers (fence ++ lit "json" ++ nl ++ lit "{}" ++ nl ++ fence))
              sample_json_loads initial_context initial_world)
    as (_ & _ & _ & _ & _ & Hfenced).
  rewrite (Hfenced _ (fence ++ lit "json") (lit "{}") fence eq_refl eq_refl).
  - reflexivity.
  - vm_compute. intuition discriminate.
  - vm_compute. intuition discriminate.
  - reflexivity.
  - reflexivity.
Defined.

(** C8 as stated fails on fenced answers of fewer than three lines.  On two
    lines the last line is not discarded: it is the text handed to the
    parser, as a parser that returns its argument shows.  On one line
    nothing is parsed, and an error object is returned although neither the
    model call nor the parse has failed. *)
Lemma fenced_answer_of_two_lines_keeps_last_line :
  let echo (text : str) := Return (PStr text) in
  let two_lines := fence ++ nl ++ fence in
  let one_line := fence ++ lit "{}" ++ fence in
  strip two_lines = two_lines
  /\ startswith two_lines fence && endswith two_lines fence = true
  /\ unwrap_markdown two_lines = Return fence
  /\ report_from echo (Return two_lines) = PStr fence
  /\ startswith one_line fence && endswith one_line fence = true
  /\ unwrap_markdown one_line = Raise (lit "list index out of range")
  /\ report_from echo (Return one_line)
     = report_failure (lit "list index out of range").
Proof. cbv zeta. repeat split. Qed.

(** C9 at a field of blanks, in the initial state and in a completed one. *)
Lemma blank_field_is_rejected_without_mutation_witness :
  let model := model_answers (lit "Anything else?") in
  forallb isspace (lit "   ") = true
  /\ (fst (serve model sample_json_loads sample_jsonify_error
             (POST_start_interview (json_body "initial_symptom" (lit "   ")))
             completed_world)).(status) = 400%Z
  /\ snd (serve model sample_json_loads sample_jsonify_error
            (POST_start_interview (json_body "initial_symptom" (lit "   ")))
            completed_world) = completed_world
  /\ (fst (serve model sample_json_loads sample_jsonify_error
             (POST_continue_interview (json_body "user_response" (lit "   ")))
             initial_world)).(status) = 400%Z
  /\ snd (serve model sample_json_loads sample_jsonify_error
            (POST_continue_interview (json_body "user_response" (lit "   ")))
            initial_world) = initial_world.
Proof.
  cbv zeta. split; [reflexivity|].
  destruct (@blank_field_is_rejected_without_mutation
              (model_answers (lit "Anything else?")) sample_json_loads
              sample_jsonify_error
              (json_body "initial_symptom" (lit "   ")) (lit "   ")
              completed_world eq_refl) as (Hstart & _).
  destruct (Hstart (carries_json_body "initial_symptom" (lit "   ")))
    as (m1 & ->).
  destruct (@blank_field_is_rejected_without_mutation
              (model_answers (lit "Anything else?")) sample_json_loads
              sample_jsonify_error
              (json_body "user_response" (lit "   ")) (lit "   ")
              initial_world eq_refl) as (_ & Hcontinue).
  destruct (Hcontinue (carries_json_body "user_response" (lit "   ")))
    as (m2 & ->).
  repeat split.
Defined.

(** C10 after one successful start: the second start returns 3 and a
    continue returns 2. *)
Lemma interview_ids_count_successful_starts_witness :
  let model := model_answers (lit "How severe is it?") in
  let first := POST_start_interview (json_body "initial_symptom" (lit "headache")) in
  let w := snd (serve_all model sample_json_loads sample_jsonify_error [first]
                  initial_world) in
  let started_reply :=
    fst (serve model sample_json_loads sample_jsonify_error
           (POST_start_interview (json_body "initial_symptom" (lit "cough"))) w) in
  started_reply.(status) = 200%Z
  /\ body_field "interview_id" started_reply = Some (PInt 3).
Proof.
  cbv zeta. split; [reflexivity|].
  destruct (@interview_ids_count_successful_starts
              (model_answers (lit "How severe is it?")) sample_json_loads
              sample_jsonify_error
              [POST_start_interview (json_body "initial_symptom" (lit "headache"))]
              (json_body "initial_symptom" (lit "cough")))
    as (_ & _ & _ & Hstart & _).
  exact (Hstart eq_refl).
Defined.

(** C10 as stated fails: in a fresh process a continue is answered with
    interview id 1. *)
Lemma interview_id_one_is_returned :
  let served :=
    serve (model_raises (lit "model unavailable")) sample_json_loads
          sample_jsonify_error
          (POST_continue_interview (json_body "user_response" (lit "hello")))
          initial_world in
  (fst served).(status) = 200%Z
  /\ body_field "interview_id" (fst served) = Some (PInt 1)
  /\ body_field "next_question" (fst served) = Some (PStr apology).
Proof. cbv zeta. repeat split. Qed.

(* ===================================================================== *)
(** ** Further properties: how requests are read *)
(* ===================================================================== *)

Lemma carries_request_field (key : string) (raw : str) (req : outcome pyval) :
  carries key raw req -> request_field key req = Return (strip raw).
Proof.
  intros (data & -> & Hget). unfold request_field. now rewrite Hget.
Qed.

Lemma malformed_request_field (key : string) (req : outcome pyval) (e : exn) :
  malformed key req e -> request_field key req = Raise e.
Proof.
  intros [e'|data Hdata|items v Hv Hstr]; unfold request_field.
  - reflexivity.
  - destruct data; try reflexivity. now elim (Hdata items).
  - unfold py_get. rewrite Hv.
    destruct v; try reflexivity. now elim (Hstr s).
Qed.

(** Conversely, a request is read as a trimmed string only when it carries
    one, and reading it raises only in one of the three ways. *)
Lemma request_field_returns (key : string) (req : outcome pyval) (s : str) :
  request_field key req = Return s ->
  exists raw, carries key raw req /\ s = strip raw.
Proof.
  unfold request_field. destruct req as [data|e]; [|discriminate].
  destruct (py_get data (lit key) (PStr [])) as [field|e] eqn:Hget; [|discriminate].
  destruct field; try discriminate.
  intros H. injection H as <-. eexists. split; [|reflexivity].
  exists data. split; [reflexivity|exact Hget].
Qed.

Lemma request_field_raises (key : string) (req : outcome pyval) (e : exn) :
  request_field key req = Raise e -> malformed key req e.
Proof.
  unfold request_field. destruct req as [data|e']; [|intros [= ->]; constructor].
  destruct data;
    try (intros [= <-]; apply (body_not_an_object key); intros ? ?; discriminate).
  unfold py_get.
  destruct (dict_lookup (lit key) items) as [v|] eqn:Hv; [|discriminate].
  destruct v; try discriminate;
    intros [= <-]; apply (field_not_a_string key items Hv); intros ? ?; discriminate.
Qed.

Section Coverage.

Variable crew_kickoff : nat -> Task -> outcome str.
Variable json_loads : str -> outcome pyval.
Variable jsonify_error : pyval -> option exn.

Local Abbreviation generate_report := (generate_report crew_kickoff json_loads).
Local Abbreviation get_next_question := (get_next_question crew_kickoff).
Local Abbreviation continue_interview :=
  (continue_interview crew_kickoff json_loads jsonify_error).
Local Abbreviation get_report := (get_report crew_kickoff json_loads jsonify_error).
Local Abbreviation serve := (serve crew_kickoff json_loads jsonify_error).
Local Abbreviation serve_all := (serve_all crew_kickoff json_loads jsonify_error).
Local Abbreviation report_in := (report_in crew_kickoff json_loads).
Local Abbreviation question_in := (question_in crew_kickoff).
Local Abbreviation completing_reply := (completing_reply jsonify_error).
Local Abbreviation report_reply := (report_reply jsonify_error).
Local Abbreviation reply_error := (reply_error crew_kickoff json_loads jsonify_error).

(** [start_interview] by what its request reads as. *)
Lemma start_interview_run (req : outcome pyval) (w : World) :
  start_interview req w
  = match request_field "initial_symptom" req with
    | Raise e => (Return (start_failure e), w)
    | Return [] =>
        (Return (jsonify_status
                   (error_body (lit "Please provide an initial symptom to start the interview."))
                   400), w)
    | Return symptom =>
        (Return (start_reply (started w.(interview_context) symptom) symptom),
         with_context (started w.(interview_context) symptom) w)
    end.
Proof.
  unfold start_interview, request_field. run_py.
  destruct req as [data|e]; [|reflexivity]. cbv beta iota.
  destruct (py_get data (lit "initial_symptom") (PStr [])) as [field|e];
    [|reflexivity].
  cbv beta iota. destruct (py_strip field) as [[|ch r]|e]; reflexivity.
Qed.

(** [continue_interview] by the state and by what its request reads as. *)
Lemma continue_interview_run (req : outcome pyval) (w : World) :
  let c := w.(interview_context) in
  continue_interview req w
  = if c.(is_complete) then
      (Return (jsonify_status
                 (error_body (lit "Interview is already complete. Please start a new one."))
                 400), w)
    else
      match request_field "user_response" req with
      | Raise e =>
          (Return (continue_failure e),
           with_context (advanced c c.(conversation_history) true) w)
      | Return [] =>
          (Return (jsonify_status
                     (error_body (lit "Please provide a response to continue.")) 400), w)
      | Return user_response =>
          let h := answered c user_response in
          if (5 <=? user_turn_count h)%Z then
            let c' :=
              advanced c (h ++ [ {| role := System; text := completion_notice |} ]) true in
            (Return (completing_reply c' (report_in (advanced c h true) w)),
             with_context c' (logged (report_task_of (advanced c h true)) w))
          else
            match topic_for (user_turn_count h) with
            | Topic next_q =>
                let t := question_task_of h c.(initial_symptom) next_q in
                let q := question_in t w in
                let c' := advanced c (h ++ [ {| role := Agent; text := q |} ]) false in
                (Return (question_reply c' q), with_context c' (logged t w))
            | Closing =>
                let c' :=
                  advanced c (h ++ [ {| role := Agent; text := closing_question |} ]) false in
                (Return (question_reply c' closing_question), with_context c' w)
            end
      end.
Proof.
  intros c. subst c. open_world w.
  enter_continue_interview. unfold request_field, answered. run_py.
  destruct done; [reflexivity|].
  destruct req as [data|e]; [|reflexivity]. cbv beta iota.
  destruct (py_get data (lit "user_response") (PStr [])) as [field|e];
    [|reflexivity].
  cbv beta iota. destruct (py_strip field) as [[|ch r]|e]; try reflexivity.
  cbv beta iota.
  destruct (5 <=? _)%Z; cbv beta iota.
  - rewrite generate_report_run. run_py. enter_completing_reply.
    destruct (jsonify_error _); reflexivity.
  - rewrite get_next_question_run. destruct (topic_for _); reflexivity.
Qed.

(* ===================================================================== *)
(** ** Further properties: requests that cannot be read *)
(* ===================================================================== *)

(** X1.  On an interview that is not complete, a [/continue_interview]
    request that cannot be read (unreadable body, body that is no JSON
    object, field that is no string) is answered with 500 and the message of
    the exception, calls no model, leaves id, history and symptom as they
    were and marks the interview complete: from then on every continue is
    refused with 400, and [/get_report] no longer is: it generates a report
    from the history as it stands, and answers 200 with it when [jsonify]
    serialises it, and 500 when [jsonify] raises. *)
Theorem unreadable_continue_ends_interview
    (req : outcome pyval) (e : exn) (w : World) :
  w.(interview_context).(is_complete) = false ->
  malformed "user_response" req e ->
  let c := w.(interview_context) in
  let w' := with_context (advanced c c.(conversation_history) true) w in
  serve (POST_continue_interview req) w = (continue_failure e, w')
  /\ w'.(kickoffs) = w.(kickoffs)
  /\ (forall next,
        serve (POST_continue_interview next) w'
        = (jsonify_status
             (error_body (lit "Interview is already complete. Please start a new one."))
             400, w'))
  /\ snd (serve GET_get_report w')
     = logged (report_task_of w'.(interview_context)) w'
  /\ (fst (serve GET_get_report w')).(status)
     = match jsonify_error (report_in w'.(interview_context) w') with
       | None => 200%Z
       | Some _ => 500%Z
       end.
Proof.
  intros Hdone Hbad c w'.
  assert (Hrun : continue_interview req w = (Return (continue_failure e), w')).
  { rewrite continue_interview_run. cbv zeta. rewrite Hdone.
    now rewrite (malformed_request_field Hbad). }
  split; [exact (serve_handler _ _ _ (POST_continue_interview req) w Hrun)|].
  split; [reflexivity|]. split.
  - intros next.
    apply (serve_handler _ _ _ (POST_continue_interview next) w').
    simpl handler. now rewrite continue_interview_run.
  - enter_serve. simpl handler. rewrite get_report_run.
    subst w'. simpl. enter_report_reply.
    split; destruct (jsonify_error _); reflexivity.
Qed.

(** X2.  A [/start_interview] request that cannot be read is answered with
    500 and the message of the exception, and changes nothing: unlike
    [/continue_interview], it does not mark the interview complete. *)
Theorem unreadable_start_changes_nothing
    (req : outcome pyval) (e : exn) (w : World) :
  malformed "initial_symptom" req e ->
  serve (POST_start_interview req) w = (start_failure e, w).
Proof.
  intros Hbad. apply (serve_handler _ _ _ (POST_start_interview req) w).
  simpl handler. rewrite start_interview_run.
  now rewrite (malformed_request_field Hbad).
Qed.

(* ===================================================================== *)
(** ** Further properties: what one request does to the state *)
(* ===================================================================== *)

Lemma topic_for_closing (n : Z) : topic_for n = Closing -> (4 < n)%Z.
Proof.
  unfold topic_for.
  destruct ((1 <=? n) && (n <=? 4))%Z.
  - now destruct n as [|[[|[]|]|[|[]|]|]|].
  - destruct (Z.ltb_spec 4 n); [trivial|discriminate].
Qed.

Lemma user_turn_count_answered (c : Context) (user_response : str) :
  user_turn_count (answered c user_response)
  = (user_turn_count c.(conversation_history) + 1)%Z.
Proof. unfold answered. now rewrite user_turn_count_app. Qed.

(** The closing prompt is out of reach of [continue_interview]: it asks the
    planner only with one to four User turns on record. *)
Lemma no_closing_after_answer (c : Context) (user_response : str) :
  (5 <=? user_turn_count (answered c user_response))%Z = false ->
  topic_for (user_turn_count (answered c user_response)) <> Closing.
Proof.
  intros Hlt Hclosing. apply topic_for_closing in Hclosing.
  apply Z.leb_gt in Hlt. lia.
Qed.

(** X3.  Whatever is served that is not a successful [/start_interview]
    leaves the interview id and the recorded symptom as they are and only
    appends to the history, at most two turns; once the interview is
    complete it leaves the whole context untouched, so [is_complete] never
    goes back to false without a new start. *)
Theorem session_only_grows_between_starts (r : Request) (w : World) :
  let resp := fst (serve r w) in
  let c := w.(interview_context) in
  let c' := (snd (serve r w)).(interview_context) in
  is_start r && (resp.(status) =? 200)%Z = false ->
  c'.(interview_id) = c.(interview_id)
  /\ c'.(initial_symptom) = c.(initial_symptom)
  /\ (exists suffix,
        c'.(conversation_history) = c.(conversation_history) ++ suffix
        /\ (length suffix <= 2)%nat)
  /\ (c.(is_complete) = true -> c' = c).
Proof.
  intros resp c c'. subst resp c c'.
  destruct r as [req|req|];
    serve_cases start_interview_run continue_interview_run get_report_run;
    simpl; intros Hr; try discriminate Hr;
    repeat match goal with |- _ /\ _ => split end;
    try reflexivity; try congruence;
    unfold answered; simpl;
    first [ exists []; rewrite app_nil_r; split; [reflexivity|simpl; lia]
          | rewrite <- app_assoc; eexists; split; [reflexivity|simpl; lia] ].
Qed.

(** X4.  A reply of [/start_interview] or [/continue_interview] with status
    200 shows the state as it is after the call: its [interview_id] and
    [history] are those of the context.  Every other reply of the two has
    status 400 or 500 and is an object with the single key [error]. *)
Theorem replies_show_the_state (r : Request) (w : World) :
  let resp := fst (serve r w) in
  let c' := (snd (serve r w)).(interview_context) in
  is_start r = true \/ (exists req, r = POST_continue_interview req) ->
  (resp.(status) = 200%Z
   /\ body_field "interview_id" resp = Some (PInt c'.(interview_id))
   /\ body_field "history" resp = Some (history_json c'.(conversation_history))
   /\ body_field "error" resp = None)
  \/ ((resp.(status) = 400%Z \/ resp.(status) = 500%Z)
      /\ exists message, resp.(body) = error_body message).
Proof.
  intros resp c' Hr. subst resp c'.
  destruct r as [req|req|]; [| |destruct Hr as [Hr|[req Hr]]; discriminate Hr];
    serve_cases start_interview_run continue_interview_run get_report_run;
    simpl;
    first [ left; repeat split; reflexivity
          | right; split; [now left|eexists; reflexivity]
          | right; split; [now right|eexists; reflexivity] ].
Qed.

(* ===================================================================== *)
(** ** Further properties: calls to the model *)
(* ===================================================================== *)

Lemma serve_model_calls (r : Request) (w : World) :
  exists new,
    (snd (serve r w)).(kickoffs) = w.(kickoffs) ++ new
    /\ (model_calls r (fst (serve r w)) <= length new)%nat
    /\ (length new <= model_calls_at_most r (fst (serve r w)))%nat
    /\ ((fst (serve r w)).(status) <> 500%Z ->
        length new = model_calls r (fst (serve r w))).
Proof.
  destruct r as [req|req|];
    serve_cases start_interview_run continue_interview_run get_report_run;
    simpl;
    try (exists []; rewrite app_nil_r; repeat split; simpl; congruence || lia);
    try (eexists; split; [reflexivity|]; repeat split; simpl; congruence || lia).
  exfalso. eapply no_closing_after_answer; eassumption.
Qed.

(** X5.  Serving a run of requests only adds to the record of the tasks
    kicked off, and each request adds at most one: none for a
    [/start_interview] or for a request answered with 400, one for a
    [/continue_interview] or a [/get_report] answered with 200.  A request
    answered with 500 may have cost a call (the report was generated and
    [jsonify] raised on it) or none (the request could not be read).  So the
    calls of a run are at least the 200 replies of the two routes and at
    most their replies other than 400, and they are exactly the 200 replies
    when no request of the run was answered with 500. *)
Theorem model_is_called_at_most_once_per_request
    (rs : list Request) (w : World) :
  exists new,
    (snd (serve_all rs w)).(kickoffs) = w.(kickoffs) ++ new
    /\ (total model_calls rs (fst (serve_all rs w)) <= length new)%nat
    /\ (length new <= total model_calls_at_most rs (fst (serve_all rs w)))%nat
    /\ (Forall (fun resp => resp.(status) <> 500%Z) (fst (serve_all rs w)) ->
        length new = total model_calls rs (fst (serve_all rs w))).
Proof.
  revert w. induction rs as [|r rs IH]; intros w; simpl.
  - exists []. rewrite app_nil_r. repeat split; simpl; lia.
  - destruct (serve_model_calls r w) as (new1 & H1 & L1 & M1 & E1).
    destruct (serve r w) as [resp w1]. simpl in H1, L1, M1, E1.
    destruct (IH w1) as (new2 & H2 & L2 & M2 & E2).
    destruct (serve_all rs w1) as [resps w2]. simpl in *.
    exists (new1 ++ new2). rewrite H2, H1, <- app_assoc, length_app.
    split; [reflexivity|]. split; [lia|]. split; [lia|].
    intros Hall. inversion Hall as [|? ? Hresp Hresps]; subst.
    rewrite (E1 Hresp), (E2 Hresps). reflexivity.
Qed.

(* ===================================================================== *)
(** ** Further properties: the transcript of a process *)
(* ===================================================================== *)

Lemma exchanges_app (a b : list (str * str)) :
  exchanges (a ++ b) = exchanges a ++ exchanges b.
Proof. unfold exchanges. apply flat_map_app. Qed.

Lemma length_exchanges (pairs : list (str * str)) :
  length (exchanges pairs) = (2 * length pairs)%nat.
Proof. induction pairs as [|p pairs IH]; simpl in *; lia. Qed.

Lemma user_turn_count_exchanges (pairs : list (str * str)) :
  user_turn_count (exchanges pairs) = Z.of_nat (length pairs).
Proof.
  unfold user_turn_count.
  induction pairs as [|p pairs IH]; simpl in *; lia.
Qed.

Lemma user_turn_count_concat (a b : list Turn) :
  user_turn_count (a ++ b) = (user_turn_count a + user_turn_count b)%Z.
Proof. unfold user_turn_count. rewrite filter_app, length_app. lia. Qed.

(** One served request keeps the shape of the context. *)
Lemma serve_well_shaped (r : Request) (w : World) :
  well_shaped w.(interview_context) ->
  well_shaped (snd (serve r w)).(interview_context).
Proof.
  intros Hw.
  destruct r as [req|req|];
    serve_cases start_interview_run continue_interview_run get_report_run;
    simpl; try exact Hw.
  2-3: (* the fifth answer, whatever the reply *)
    destruct Hw as (pairs & Hlen & [Hh|(Hdone & _)]); [|congruence];
    exists pairs;
    match goal with H : (5 <=? _)%Z = true |- _ =>
      apply Z.leb_le in H; rewrite user_turn_count_answered, Hh,
        user_turn_count_exchanges in H end;
    (split; [exact Hlen|]); right; (split; [reflexivity|]); (split; [lia|]);
    exists (n :: l); unfold answered; rewrite Hh, <- app_assoc; reflexivity.
  - (* a new interview: one exchange *)
    exists [(n :: l, opening_question (n :: l))]. split; [simpl; lia|].
    left. reflexivity.
  - (* one more exchange *)
    destruct Hw as (pairs & Hlen & [Hh|(Hdone & _)]); [|congruence].
    match goal with H : (5 <=? _)%Z = false |- _ =>
      apply Z.leb_gt in H; rewrite user_turn_count_answered, Hh,
        user_turn_count_exchanges in H end.
    eexists (pairs ++ [(n :: l, _)]). split; [rewrite length_app; simpl; lia|].
    left. unfold answered. rewrite Hh, exchanges_app, <- app_assoc. reflexivity.
  - exfalso. eapply no_closing_after_answer; eassumption.
  - (* ended by an unreadable request: the history stays *)
    destruct Hw as (pairs & Hlen & [Hh|(Hdone & _)]); [|congruence].
    exists pairs. split; [exact Hlen|]. left. exact Hh.
Qed.

Lemma serve_all_well_shaped (rs : list Request) (w : World) :
  well_shaped w.(interview_context) ->
  well_shaped (snd (serve_all rs w)).(interview_context).
Proof.
  revert w. induction rs as [|r rs IH]; intros w Hw; simpl; [exact Hw|].
  pose proof (@serve_well_shaped r w Hw) as H1.
  destruct (serve r w) as [resp w1]. simpl in H1.
  specialize (IH w1 H1). now destruct (serve_all rs w1).
Qed.

(** X6.  In every state a process reaches from its start, the history is a
    run of at most four exchanges, a User turn followed by an Agent turn,
    and, when the interview was completed by a fifth answer, that answer
    and the System notice after them.  So a history never holds more than
    ten turns nor more than five User turns, and while the interview is not
    complete it holds two turns for each of at most four User turns. *)
Theorem reachable_transcript_is_bounded (rs : list Request) :
  let c := (snd (serve_all rs initial_world)).(interview_context) in
  let h := c.(conversation_history) in
  well_shaped c
  /\ (length h <= 10)%nat
  /\ (user_turn_count h <= 5)%Z
  /\ (c.(is_complete) = false ->
      Z.of_nat (length h) = (2 * user_turn_count h)%Z
      /\ (user_turn_count h <= 4)%Z).
Proof.
  intros c h.
  assert (Hw : well_shaped c).
  { apply serve_all_well_shaped. exists []. split; [simpl; lia|]. now left. }
  split; [exact Hw|].
  destruct Hw as (pairs & Hlen & [Hh|(Hdone & H4 & answer & Hh)]); fold h in Hh.
  - rewrite Hh, length_exchanges, user_turn_count_exchanges.
    repeat split; lia.
  - rewrite Hh, length_app, length_exchanges, user_turn_count_concat,
      user_turn_count_exchanges.
    change (user_turn_count
              [ {| role := User; text := answer |};
                {| role := System; text := completion_notice |} ]) with 1%Z.
    simpl length.
    repeat split; try lia. intros Hnot. congruence.
Qed.

(* ===================================================================== *)
(** ** Further properties: recorded texts *)
(* ===================================================================== *)

Lemma lstrip_idem (s : str) : lstrip (lstrip s) = lstrip s.
Proof.
  destruct (lstrip s) as [|c r] eqn:Hs; [reflexivity|].
  apply lstrip_head in Hs. simpl. now rewrite Hs.
Qed.

Lemma lstrip_snoc (x : str) (c : N) :
  isspace c = false -> lstrip (x ++ [c]) = lstrip x ++ [c].
Proof.
  intros Hc. induction x as [|d x IH]; simpl.
  - now rewrite Hc.
  - destruct (isspace d); [exact IH|reflexivity].
Qed.

(** Trimming twice is trimming once. *)
Lemma strip_idem (s : str) : trimmed (strip s).
Proof.
  unfold trimmed, strip, rstrip.
  set (a := lstrip s).
  assert (Hb : lstrip (rev (lstrip (rev a))) = rev (lstrip (rev a))).
  { destruct a as [|c a'] eqn:Ha; [reflexivity|].
    apply lstrip_head in Ha.
    change (rev (c :: a')) with (rev a' ++ [c]).
    rewrite (@lstrip_snoc (rev a') c Ha), rev_app_distr.
    change (rev [c] ++ rev (lstrip (rev a'))) with (c :: rev (lstrip (rev a'))).
    simpl lstrip. now rewrite Ha. }
  rewrite Hb, rev_involutive, lstrip_idem. reflexivity.
Qed.

(** A text between a first and a last character that are no white space. *)
Lemma trimmed_between (c d : N) (s : str) :
  isspace c = false -> isspace d = false -> trimmed (c :: s ++ [d]).
Proof. intros Hc Hd. exact (proj1 (@strip_fixed c d s Hc Hd)). Qed.

Lemma trimmed_opening_question (symptom : str) :
  trimmed (opening_question symptom).
Proof.
  unfold opening_question.
  change (lit "Thank you for sharing your symptom: '")
    with (84%N :: lit "hank you for sharing your symptom: '").
  change (lit "'. To begin, can you tell me when you first noticed this symptom?")
    with (lit "'. To begin, can you tell me when you first noticed this symptom"
          ++ [63%N]).
  rewrite <- app_comm_cons, !app_assoc.
  now apply trimmed_between.
Qed.

Lemma trimmed_question_in (t : Task) (w : World) : trimmed (question_in t w).
Proof.
  enter_question_in. destruct (crew_kickoff _ _); [apply strip_idem|reflexivity].
Qed.

Lemma tidy_app (h l : list Turn) : tidy h -> tidy l -> tidy (h ++ l).
Proof. unfold tidy. intros Hh Hl. apply Forall_app. now split. Qed.

(** The answer a handler records is trimmed and not empty. *)
Lemma tidy_answer (key : string) (req : outcome pyval) (c : N) (r : str) :
  request_field key req = Return (c :: r) ->
  tidy [ {| role := User; text := c :: r |} ].
Proof.
  intros H. apply request_field_returns in H as (raw & _ & Hs).
  constructor; [|constructor]. simpl.
  split; [rewrite Hs; apply strip_idem|discriminate].
Qed.

Lemma tidy_reply (speaker : Role) (q : str) :
  speaker <> User -> trimmed q -> tidy [ {| role := speaker; text := q |} ].
Proof.
  intros Hs Hq. constructor; [|constructor]. simpl. split; [exact Hq|].
  intros H. now elim Hs.
Qed.

Lemma serve_tidy (r : Request) (w : World) :
  tidy w.(interview_context).(conversation_history) ->
  tidy (snd (serve r w)).(interview_context).(conversation_history).
Proof.
  intros Hw.
  destruct r as [req|req|];
    serve_cases start_interview_run continue_interview_run get_report_run;
    simpl; try exact Hw; unfold answered;
    repeat apply tidy_app; try exact Hw;
    try (eapply tidy_answer; eassumption);
    try (apply tidy_reply; [discriminate|]);
    try apply trimmed_question_in; try reflexivity.
  change [ {| role := User; text := n :: l |};
           {| role := Agent; text := opening_question (n :: l) |} ]
    with ([ {| role := User; text := n :: l |} ]
          ++ [ {| role := Agent; text := opening_question (n :: l) |} ]).
  apply tidy_app; [eapply tidy_answer; eassumption|].
  apply tidy_reply; [discriminate|apply trimmed_opening_question].
Qed.

(** X7.  In every state a process reaches from its start, every turn of the
    history holds a text without leading or trailing white space (what was
    sent or what the model answered is recorded trimmed), and no User turn
    holds an empty text. *)
Theorem reachable_transcript_is_tidy (rs : list Request) :
  tidy (snd (serve_all rs initial_world)).(interview_context).(conversation_history).
Proof.
  assert (H : forall w,
             tidy w.(interview_context).(conversation_history) ->
             tidy (snd (serve_all rs w)).(interview_context).(conversation_history)).
  { induction rs as [|r rs IH]; intros w Hw; simpl; [exact Hw|].
    pose proof (@serve_tidy r w Hw) as H1.
    destruct (serve r w) as [resp w1]. simpl in H1.
    specialize (IH w1 H1). now destruct (serve_all rs w1). }
  apply H. constructor.
Qed.

(* ===================================================================== *)
(** ** Further properties: the topics of a started interview *)
(* ===================================================================== *)

(** An accepted answer that leaves fewer than five User turns asks about the
    entry of [interview_steps] that the new number of User turns selects. *)
Lemma serve_continue_topic (req : outcome pyval) (raw : str) (w : World) (users : Z) :
  let c := w.(interview_context) in
  c.(is_complete) = false ->
  user_turn_count c.(conversation_history) = users ->
  carries "user_response" raw req -> strip raw <> [] ->
  (users + 1 < 5)%Z ->
  exists next_q,
    topic_for (users + 1) = Topic next_q /\
    let t := question_task_of (answered c (strip raw)) c.(initial_symptom) next_q in
    (snd (serve (POST_continue_interview req) w)).(kickoffs) = w.(kickoffs) ++ [t]
    /\ body_field "next_question" (fst (serve (POST_continue_interview req) w))
       = Some (PStr (question_in t w))
    /\ (snd (serve (POST_continue_interview req) w)).(interview_context).(initial_symptom)
       = c.(initial_symptom).
Proof.
  intros c Hdone Hcount Hreq Hne Hlt.
  destruct (@continue_interview_asks crew_kickoff json_loads jsonify_error req raw w Hdone Hreq Hne)
    as (next_q & Htopic & Hrun).
  { fold c. rewrite user_turn_count_answered, Hcount. exact Hlt. }
  fold c in Htopic. rewrite user_turn_count_answered, Hcount in Htopic.
  exists next_q. split; [exact Htopic|]. cbv zeta in Hrun |- *.
  rewrite (serve_handler _ _ _ (POST_continue_interview req) w Hrun).
  repeat split.
Qed.

(** X8.  In an interview started through [/start_interview] and continued
    with four answers that are non-empty once trimmed, the start calls no
    model, the first three answers are followed by one question task each,
    about the second, third and fourth entry of [interview_steps] in that
    order (onset and course, modifying factors, associated symptoms), built
    from the history that ends with the answer and from the trimmed symptom,
    and the fourth answer by the report task: the first entry (location,
    quality, severity) is not asked about. *)
Theorem started_interview_asks_topics_two_to_four
    (w0 : World) (q0 q1 q2 q3 q4 : outcome pyval) (s a1 a2 a3 a4 : str) :
  carries "initial_symptom" s q0 -> strip s <> [] ->
  carries "user_response" a1 q1 -> strip a1 <> [] ->
  carries "user_response" a2 q2 -> strip a2 <> [] ->
  carries "user_response" a3 q3 -> strip a3 <> [] ->
  carries "user_response" a4 q4 -> strip a4 <> [] ->
  let '(p0, w1) := serve (POST_start_interview q0) w0 in
  let '(p1, w2) := serve (POST_continue_interview q1) w1 in
  let '(p2, w3) := serve (POST_continue_interview q2) w2 in
  let '(p3, w4) := serve (POST_continue_interview q3) w3 in
  let '(p4, w5) := serve (POST_continue_interview q4) w4 in
  let asked (w : World) (answer : str) (topic : str) :=
    question_task_of (answered w.(interview_context) (strip answer))
      (Some (strip s)) topic in
  w1.(kickoffs) = w0.(kickoffs)
  /\ w2.(kickoffs) = w1.(kickoffs) ++ [asked w1 a1 onset_course]
  /\ w3.(kickoffs) = w2.(kickoffs) ++ [asked w2 a2 modifying_factors]
  /\ w4.(kickoffs) = w3.(kickoffs) ++ [asked w3 a3 associated_symptoms]
  /\ w5.(kickoffs)
     = w4.(kickoffs)
       ++ [report_task_of
             (advanced w4.(interview_context)
                (answered w4.(interview_context) (strip a4)) true)]
  /\ body_field "next_question" p1 = Some (PStr (question_in (asked w1 a1 onset_course) w1))
  /\ body_field "next_question" p2
     = Some (PStr (question_in (asked w2 a2 modifying_factors) w2))
  /\ body_field "next_question" p3
     = Some (PStr (question_in (asked w3 a3 associated_symptoms) w3)).
Proof.
  intros H0 N0 H1 N1 H2 N2 H3 N3 H4 N4.
  rewrite (serve_handler _ _ _ (POST_start_interview q0) w0
             (start_interview_accepts w0 H0 N0)).
  set (w1 := with_context _ w0).
  assert (D1 : w1.(interview_context).(is_complete) = false) by reflexivity.
  assert (L1 : length w1.(interview_context).(conversation_history) = 2%nat)
    by reflexivity.
  assert (U1 : user_turn_count w1.(interview_context).(conversation_history) = 1%Z)
    by reflexivity.
  assert (S1 : w1.(interview_context).(initial_symptom) = Some (strip s))
    by reflexivity.
  pose proof (@serve_continue_collecting crew_kickoff json_loads jsonify_error q1 a1 w1 _ _
                D1 L1 U1 H1 N1 ltac:(lia)) as C1.
  destruct (@serve_continue_topic q1 a1 w1 1 D1 U1 H1 N1 ltac:(lia))
    as (t1 & T1 & K1 & B1 & S2).
  cbv in T1. injection T1 as <-. rewrite S1 in K1, B1, S2.
  destruct (serve (POST_continue_interview q1) w1) as [p1 w2].
  simpl fst in *. simpl snd in *.
  pose proof C1 as (_ & _ & _ & _ & _ & D2 & L2 & U2).
  pose proof (@serve_continue_collecting crew_kickoff json_loads jsonify_error q2 a2 w2 _ _
                D2 L2 U2 H2 N2 ltac:(lia)) as C2.
  destruct (@serve_continue_topic q2 a2 w2 _ D2 U2 H2 N2 ltac:(lia))
    as (t2 & T2 & K2 & B2 & S3).
  cbv in T2. injection T2 as <-. rewrite S2 in K2, B2, S3.
  destruct (serve (POST_continue_interview q2) w2) as [p2 w3].
  simpl fst in *. simpl snd in *.
  pose proof C2 as (_ & _ & _ & _ & _ & D3 & L3 & U3).
  pose proof (@serve_continue_collecting crew_kickoff json_loads jsonify_error q3 a3 w3 _ _
                D3 L3 U3 H3 N3 ltac:(lia)) as C3.
  destruct (@serve_continue_topic q3 a3 w3 _ D3 U3 H3 N3 ltac:(lia))
    as (t3 & T3 & K3 & B3 & S4).
  cbv in T3. injection T3 as <-. rewrite S3 in K3, B3, S4.
  destruct (serve (POST_continue_interview q3) w3) as [p3 w4].
  simpl fst in *. simpl snd in *.
  pose proof C3 as (_ & _ & _ & _ & _ & D4 & L4 & U4).
  assert (U5 : (5 <= user_turn_count
                       (answered w4.(interview_context) (strip a4)))%Z).
  { rewrite user_turn_count_answered, U4. lia. }
  pose proof (@continue_interview_completes crew_kickoff json_loads jsonify_error q4 a4 w4
                D4 H4 N4 U5) as R4.
  cbv zeta in R4.
  rewrite (serve_handler _ _ _ (POST_continue_interview q4) w4 R4).
  cbv zeta.
  repeat match goal with |- _ /\ _ => split end;
    first [assumption | reflexivity].
Qed.

(* ===================================================================== *)
(** ** Further properties: the prompts *)
(* ===================================================================== *)

Lemma contains_here (t q : str) : contains (t ++ q) t.
Proof. exists [], q. reflexivity. Qed.

Lemma contains_skip (p s t : str) : contains s t -> contains (p ++ s) t.
Proof.
  intros (b & a & ->). exists (p ++ b), a. now rewrite <- !app_assoc.
Qed.

Lemma contains_refl (s : str) : contains s s.
Proof. exists [], []. now rewrite app_nil_r. Qed.

Lemma contains_trans (s t u : str) : contains s t -> contains t u -> contains s u.
Proof.
  intros (b & a & ->) (b' & a' & ->). exists (b ++ b'), (a' ++ a).
  now rewrite <- !app_assoc.
Qed.

(** A joined text contains each of its parts. *)
Lemma join_contains (sep x : str) (l : list str) :
  In x l -> contains (join sep l) x.
Proof.
  induction l as [|y l IH]; [intros []|].
  intros [->|Hin].
  - destruct l; [apply contains_refl|apply contains_here].
  - destruct l as [|z l]; [destruct Hin|].
    change (join sep (y :: z :: l)) with (y ++ sep ++ join sep (z :: l)).
    do 2 apply contains_skip. exact (IH Hin).
Qed.

Lemma report_description_embeds (full_history : str) :
  contains (report_description full_history) full_history.
Proof.
  unfold report_description. cbn [join]. find_part contains_here contains_skip.
Qed.

Lemma question_description_embeds (symptom : option str) (next_q formatted_history : str) :
  contains (question_description symptom next_q formatted_history) (format_opt symptom)
  /\ contains (question_description symptom next_q formatted_history) next_q
  /\ contains (question_description symptom next_q formatted_history) formatted_history.
Proof.
  unfold question_description. cbn [join].
  repeat split; find_part contains_here contains_skip.
Qed.

(** X9.  Both prompts embed the transcript: the description of the report
    task of a context and the description of a question task of a history
    contain every turn of the history, rendered as its role, a colon, a
    blank and its text; the question task also contains the text of the
    selected topic and the recorded symptom ([None] before any start). *)
Theorem prompts_embed_every_turn
    (c : Context) (next_q : str) (t : Turn) :
  In t c.(conversation_history) ->
  let rendered := role_str t.(role) ++ lit ": " ++ t.(text) in
  let question :=
    question_task_of c.(conversation_history) c.(initial_symptom) next_q in
  contains (report_task_of c).(description) rendered
  /\ contains question.(description) rendered
  /\ contains question.(description) next_q
  /\ contains question.(description) (format_opt c.(initial_symptom)).
Proof.
  intros Hin rendered question.
  assert (Hfh : contains (join nl (map render_turn c.(conversation_history))) rendered).
  { apply join_contains. exact (in_map render_turn _ _ Hin). }
  destruct (question_description_embeds c.(initial_symptom) next_q
              (join nl (map render_turn c.(conversation_history))))
    as (Hs & Hq & Hh).
  repeat split.
  - exact (contains_trans (report_description_embeds _) Hfh).
  - exact (contains_trans Hh Hfh).
  - exact Hq.
  - exact Hs.
Qed.

Lemma length_report_description (full_history : str) :
  length (report_description full_history) = (1341 + length full_history)%nat.
Proof.
  unfold report_description. cbn [join]. rewrite !length_app. simpl. lia.
Qed.

Lemma length_join_snoc (sep x : str) (l : list str) :
  l <> [] ->
  length (join sep (l ++ [x])) = (length (join sep l) + length sep + length x)%nat.
Proof.
  induction l as [|y l IH]; [intros H; now elim H|]. intros _.
  destruct l as [|z l].
  - simpl. rewrite !length_app. lia.
  - change (join sep ((y :: z :: l) ++ [x]))
      with (y ++ sep ++ join sep ((z :: l) ++ [x])).
    change (join sep (y :: z :: l)) with (y ++ sep ++ join sep (z :: l)).
    rewrite !length_app, IH by discriminate. lia.
Qed.

(** X10.  The report returned with the reply that completes an interview is
    asked for before the System notice is appended, and [/get_report] asks
    for it again from the history that ends with the notice: the completing
    [/continue_interview] and a later [/get_report] kick off report tasks
    whose descriptions differ, the later one containing the System turn.
    That [/get_report] answers 200 when [jsonify] serialises the later
    report, and 500 when it raises on it. *)
Theorem get_report_asks_again_with_the_notice
    (req : outcome pyval) (raw : str) (w : World) :
  let c := w.(interview_context) in
  let h := answered c (strip raw) in
  c.(is_complete) = false ->
  carries "user_response" raw req -> strip raw <> [] ->
  (5 <= user_turn_count h)%Z ->
  let w' := snd (serve (POST_continue_interview req) w) in
  let notice := {| role := System; text := completion_notice |} in
  let first_task := report_task_of (advanced c h true) in
  let later_task := report_task_of w'.(interview_context) in
  w'.(interview_context).(conversation_history) = h ++ [notice]
  /\ w'.(kickoffs) = w.(kickoffs) ++ [first_task]
  /\ (snd (serve GET_get_report w')).(kickoffs) = w'.(kickoffs) ++ [later_task]
  /\ (fst (serve GET_get_report w')).(status)
     = match jsonify_error (report_in w'.(interview_context) w') with
       | None => 200%Z
       | Some _ => 500%Z
       end
  /\ contains later_task.(description) (render_turn notice)
  /\ later_task.(description) <> first_task.(description).
Proof.
  intros c h Hdone Hreq Hne Hge w' notice first_task later_task.
  pose proof (@continue_interview_completes crew_kickoff json_loads jsonify_error req raw w
                Hdone Hreq Hne Hge) as Hrun.
  cbv zeta in Hrun. fold c h in Hrun.
  assert (Hw' : w' = with_context (advanced c (h ++ [notice]) true)
                       (logged first_task w)).
  { unfold w'. now rewrite (serve_handler _ _ _ (POST_continue_interview req) w Hrun). }
  assert (Hget : snd (serve GET_get_report w') = logged later_task w'
                 /\ (fst (serve GET_get_report w')).(status)
                    = match jsonify_error (report_in w'.(interview_context) w') with
                      | None => 200%Z
                      | Some _ => 500%Z
                      end).
  { enter_serve. simpl handler. rewrite get_report_run.
    unfold later_task. rewrite Hw'. simpl. enter_report_reply.
    split; destruct (jsonify_error _); reflexivity. }
  destruct Hget as (Hlater & Hstatus).
  split; [now rewrite Hw'|]. split; [now rewrite Hw'|].
  split; [now rewrite Hlater|]. split; [exact Hstatus|].
  assert (Hh : w'.(interview_context).(conversation_history) = h ++ [notice])
    by now rewrite Hw'.
  split.
  - unfold later_task, report_task_of. rewrite Hh. simpl description.
    apply (contains_trans (report_description_embeds _)).
    apply join_contains, in_map, in_or_app. right. now left.
  - unfold later_task, first_task, report_task_of. rewrite Hh. simpl.
    intros Heq. apply (f_equal (@length N)) in Heq.
    rewrite !length_report_description, map_app in Heq. simpl map in Heq.
    rewrite length_join_snoc in Heq.
    + simpl in Heq. lia.
    + unfold h, answered. rewrite map_app. simpl map.
      intros Hnil. symmetry in Hnil. exact (app_cons_not_nil _ _ _ Hnil).
Qed.

(* ===================================================================== *)
(** ** Further properties: fenced answers of one or two lines *)
(* ===================================================================== *)

(** X11.  When the trimmed answer of the model starts and ends with the
    fence and holds no line feed, [generate_report] returns the error object
    whose cause is the failed indexing, whatever the parser would say of
    the text; when it holds exactly one line feed, what is parsed is its
    second line, trimmed, fence included. *)
Theorem short_fenced_answer_keeps_its_fence
    (context : Context) (w : World) (out : str) :
  crew_kickoff (length w.(kickoffs)) (report_task_of context) = Return out ->
  startswith (strip out) fence = true ->
  endswith (strip out) fence = true ->
  (~ In 10%N (strip out) ->
   generate_report context w
   = (Return (report_failure (lit "list index out of range")),
      logged (report_task_of context) w))
  /\ (forall first last,
        strip out = first ++ 10%N :: last ->
        ~ In 10%N first -> ~ In 10%N last ->
        generate_report context w
        = (Return match json_loads (strip last) with
                  | Return document => document
                  | Raise e => report_failure e
                  end,
           logged (report_task_of context) w)).
Proof.
  intros Hout Hs He. split.
  - intros Hnl. rewrite generate_report_run. enter_report_in.
    rewrite Hout, (unwrap_markdown_one_line _ Hnl Hs He). reflexivity.
  - intros first last Hlines Hf Hl. rewrite generate_report_run. enter_report_in.
    rewrite Hout. rewrite Hlines in *.
    rewrite (unwrap_markdown_two_lines first last Hf Hl Hs He).
    now destruct (json_loads (strip last)).
Qed.

(* ===================================================================== *)
(** ** Further properties: what a status code tells *)
(* ===================================================================== *)

(** X12.  The status of a [/start_interview] reply tells how the request
    was read, in every state: 200 exactly when the body is a JSON object
    whose [initial_symptom] is a string that is not blank, 400 exactly when
    it is a JSON object whose [initial_symptom] is absent or a blank string,
    500 exactly when the request cannot be read. *)
Theorem start_interview_status (req : outcome pyval) (w : World) :
  let resp := fst (serve (POST_start_interview req) w) in
  (resp.(status) = 200%Z
   <-> exists raw, carries "initial_symptom" raw req /\ strip raw <> [])
  /\ (resp.(status) = 400%Z
      <-> exists raw, carries "initial_symptom" raw req /\ forallb isspace raw = true)
  /\ (resp.(status) = 500%Z
      <-> exists e, malformed "initial_symptom" req e).
Proof.
  intros resp. subst resp. enter_serve. simpl handler.
  rewrite start_interview_run.
  destruct (request_field "initial_symptom" req) as [[|ch r]|e] eqn:Hread; simpl.
  - destruct (request_field_returns _ _ Hread) as (raw & Hreq & Hblank).
    repeat split; try discriminate.
    + intros (raw' & Hreq' & Hne).
      rewrite (carries_request_field Hreq') in Hread. congruence.
    + intros _. exists raw. split; [exact Hreq|].
      now apply strip_empty_iff.
    + intros (e & Hbad). rewrite (malformed_request_field Hbad) in Hread.
      discriminate.
  - destruct (request_field_returns _ _ Hread) as (raw & Hreq & Hs).
    repeat split; try discriminate.
    + intros _. exists raw. split; [exact Hreq|]. now rewrite <- Hs.
    + intros (raw' & Hreq' & Hblank). apply strip_empty_iff in Hblank.
      rewrite (carries_request_field Hreq'), Hblank in Hread. discriminate.
    + intros (e & Hbad). rewrite (malformed_request_field Hbad) in Hread.
      discriminate.
  - repeat split; try discriminate.
    + intros (raw' & Hreq' & _).
      rewrite (carries_request_field Hreq') in Hread. discriminate.
    + intros (raw' & Hreq' & _).
      rewrite (carries_request_field Hreq') in Hread. discriminate.
    + intros _. exists e. now apply request_field_raises.
Qed.

(** The status of a [/continue_interview] reply on an interview that is not
    complete, by what the request reads as. *)
Lemma serve_continue_status (req : outcome pyval) (w : World) :
  w.(interview_context).(is_complete) = false ->
  (fst (serve (POST_continue_interview req) w)).(status)
  = match request_field "user_response" req with
    | Raise _ => 500%Z
    | Return [] => 400%Z
    | Return user_response =>
        match reply_error w user_response with
        | None => 200%Z
        | Some _ => 500%Z
        end
    end.
Proof.
  intros Hdone. enter_serve. simpl handler.
  rewrite continue_interview_run. cbv zeta. rewrite Hdone.
  destruct (request_field "user_response" req) as [[|ch r]|e]; try reflexivity.
  enter_reply_error. cbv zeta.
  destruct (5 <=? _)%Z; [|destruct (topic_for _); reflexivity].
  enter_completing_reply. destruct (jsonify_error _); reflexivity.
Qed.

(** X13.  The status of a [/continue_interview] reply on an interview that
    is not complete: 400 exactly when the body is a JSON object whose
    [user_response] is absent or a blank string; 200 exactly when it is a
    string that is not blank, unless the answer completes the interview and
    [jsonify] raises on the reply with the report; 500 exactly when the
    request cannot be read or in that case. *)
Theorem continue_interview_status (req : outcome pyval) (w : World) :
  w.(interview_context).(is_complete) = false ->
  let resp := fst (serve (POST_continue_interview req) w) in
  (resp.(status) = 200%Z
   <-> exists raw,
         carries "user_response" raw req /\ strip raw <> []
         /\ reply_error w (strip raw) = None)
  /\ (resp.(status) = 400%Z
      <-> exists raw, carries "user_response" raw req /\ forallb isspace raw = true)
  /\ (resp.(status) = 500%Z
      <-> (exists e, malformed "user_response" req e)
          \/ (exists raw e,
                carries "user_response" raw req /\ strip raw <> []
                /\ reply_error w (strip raw) = Some e)).
Proof.
  intros Hdone resp. subst resp. rewrite (@serve_continue_status req w Hdone).
  destruct (request_field "user_response" req) as [[|ch r]|e] eqn:Hread.
  - destruct (request_field_returns _ _ Hread) as (raw & Hreq & Hblank).
    repeat split; try discriminate.
    + intros (raw' & Hreq' & Hne & _).
      rewrite (carries_request_field Hreq') in Hread. congruence.
    + intros _. exists raw. split; [exact Hreq|].
      now apply strip_empty_iff.
    + intros [(e & Hbad)|(raw' & e & Hreq' & Hne & _)].
      * rewrite (malformed_request_field Hbad) in Hread. discriminate.
      * rewrite (carries_request_field Hreq') in Hread. congruence.
  - destruct (request_field_returns _ _ Hread) as (raw & Hreq & Hs).
    assert (Hne : strip raw <> []) by now rewrite <- Hs.
    assert (Hsame : forall raw', carries "user_response" raw' req ->
                                 strip raw' = ch :: r).
    { intros raw' Hreq'. rewrite (carries_request_field Hreq') in Hread.
      now injection Hread. }
    assert (Hblank : forall raw', carries "user_response" raw' req ->
                                  forallb isspace raw' = true -> False).
    { intros raw' Hreq' Hb. apply strip_empty_iff in Hb.
      rewrite (Hsame raw' Hreq') in Hb. discriminate. }
    assert (Hbad : forall e, malformed "user_response" req e -> False).
    { intros e H. rewrite (malformed_request_field H) in Hread. discriminate. }
    destruct (reply_error w (ch :: r)) as [e|] eqn:Herr.
    + repeat split; try discriminate.
      * intros (raw' & Hreq' & _ & Hnone).
        rewrite (Hsame raw' Hreq') in Hnone. congruence.
      * intros (raw' & Hreq' & Hb). elim (Hblank raw' Hreq' Hb).
      * intros _. right. exists raw, e. rewrite <- Hs. now repeat split.
    + repeat split; try discriminate.
      * intros _. exists raw. rewrite <- Hs. now repeat split.
      * intros (raw' & Hreq' & Hb). elim (Hblank raw' Hreq' Hb).
      * intros [(e & H)|(raw' & e & Hreq' & _ & Hsome)]; [elim (Hbad e H)|].
        rewrite (Hsame raw' Hreq') in Hsome. congruence.
  - repeat split; try discriminate.
    + intros (raw' & Hreq' & _).
      rewrite (carries_request_field Hreq') in Hread. discriminate.
    + intros (raw' & Hreq' & _).
      rewrite (carries_request_field Hreq') in Hread. discriminate.
    + intros _. left. exists e. now apply request_field_raises.
Qed.

End Coverage.

(* ===================================================================== *)
(** ** The further properties at concrete inputs *)
(* ===================================================================== *)

(** X1 at a body that is a JSON list, sent in the middle of an interview. *)
Lemma unreadable_continue_ends_interview_witness :
  let model := model_answers (lit "Can you tell me more?") in
  let served :=
    serve model sample_json_loads sample_jsonify_error
      (POST_continue_interview (json_request (PList []))) interviewing_world in
  interviewing_world.(interview_context).(is_complete) = false
  /\ (fst served).(status) = 500%Z
  /\ (fst served).(body)
     = error_body
         (lit "An unexpected error occurred during the interview process: 'list' object has no attribute 'get'")
  /\ (snd served).(interview_context).(is_complete) = true
  /\ (snd served).(interview_context).(conversation_history)
     = interviewing_world.(interview_context).(conversation_history).
Proof.
  cbv zeta. split; [reflexivity|].
  destruct (@unreadable_continue_ends_interview
              (model_answers (lit "Can you tell me more?")) sample_json_loads
              sample_jsonify_error
              (json_request (PList [])) _ interviewing_world eq_refl
              (body_not_an_object "user_response" (data := PList [])
                 ltac:(intros items; discriminate)))
    as (Hrun & _).
  rewrite Hrun. repeat split.
Defined.

(** X2 at a symptom that is a number, sent after a completed interview. *)
Lemma unreadable_start_changes_nothing_witness :
  let model := model_answers (lit "Can you tell me more?") in
  let request :=
    POST_start_interview (json_request (PDict [(lit "initial_symptom", PInt 7)])) in
  (fst (serve model sample_json_loads sample_jsonify_error request
          completed_world)).(status) = 500%Z
  /\ snd (serve model sample_json_loads sample_jsonify_error request completed_world)
     = completed_world.
Proof.
  cbv zeta.
  rewrite (@unreadable_start_changes_nothing
             (model_answers (lit "Can you tell me more?")) sample_json_loads
             sample_jsonify_error
             (json_request (PDict [(lit "initial_symptom", PInt 7)])) _
             completed_world
             (field_not_a_string "initial_symptom"
                [(lit "initial_symptom", PInt 7)] eq_refl
                ltac:(intros s; discriminate))).
  split; reflexivity.
Defined.

(** X3 at an answer in the middle of an interview. *)
Lemma session_only_grows_between_starts_witness :
  let model := model_answers (lit "Can you tell me more?") in
  let request := POST_continue_interview (json_body "user_response" (lit "some nausea")) in
  let c := interviewing_world.(interview_context) in
  let c' :=
    (snd (serve model sample_json_loads sample_jsonify_error request
            interviewing_world)).(interview_context) in
  c'.(interview_id) = c.(interview_id)
  /\ c'.(initial_symptom) = c.(initial_symptom)
  /\ exists suffix,
       c'.(conversation_history) = c.(conversation_history) ++ suffix
       /\ (length suffix <= 2)%nat.
Proof.
  cbv zeta.
  destruct (@session_only_grows_between_starts
              (model_answers (lit "Can you tell me more?")) sample_json_loads
              sample_jsonify_error
              (POST_continue_interview (json_body "user_response" (lit "some nausea")))
              interviewing_world eq_refl)
    as (Hid & Hsym & Hgrow & _).
  repeat split; assumption.
Defined.

(** X4 at a first start. *)
Lemma replies_show_the_state_witness :
  let model := model_answers (lit "Can you tell me more?") in
  let request := POST_start_interview (json_body "initial_symptom" (lit "headache")) in
  let served :=
    serve model sample_json_loads sample_jsonify_error request initial_world in
  (fst served).(status) = 200%Z
  /\ body_field "interview_id" (fst served)
     = Some (PInt (snd served).(interview_context).(interview_id))
  /\ body_field "history" (fst served)
     = Some (history_json (snd served).(interview_context).(conversation_history)).
Proof.
  cbv zeta.
  destruct (@replies_show_the_state
              (model_answers (lit "Can you tell me more?")) sample_json_loads
              sample_jsonify_error
              (POST_start_interview (json_body "initial_symptom" (lit "headache")))
              initial_world (or_introl eq_refl))
    as [(Hst & Hid & Hh & _)|([Hst|Hst] & _)];
    [repeat split; assumption|discriminate Hst|discriminate Hst].
Defined.

(** X8 at the example of the specification. *)
Lemma started_interview_asks_topics_two_to_four_witness :
  let serve :=
    serve (model_answers (lit "Can you tell me more?")) sample_json_loads
          sample_jsonify_error in
  let '(p0, w1) :=
    serve (POST_start_interview (json_body "initial_symptom" (lit "headache")))
          initial_world in
  let '(p1, w2) :=
    serve (POST_continue_interview (json_body "user_response" (lit "started yesterday")))
          w1 in
  w1.(kickoffs) = []
  /\ w2.(kickoffs)
     = [ question_task_of
           (answered w1.(interview_context) (lit "started yesterday"))
           (Some (lit "headache")) onset_course ].
Proof.
  cbv zeta.
  pose proof (@started_interview_asks_topics_two_to_four
                (model_answers (lit "Can you tell me more?")) sample_json_loads
                sample_jsonify_error
                initial_world _ _ _ _ _ _ _ _ _ _
                (carries_json_body "initial_symptom" (lit "headache")) ltac:(nonempty)
                (carries_json_body "user_response" (lit "started yesterday")) ltac:(nonempty)
                (carries_json_body "user_response" (lit "7 out of 10")) ltac:(nonempty)
                (carries_json_body "user_response" (lit " rest helps ")) ltac:(nonempty)
                (carries_json_body "user_response" (lit "some nausea")) ltac:(nonempty))
    as H.
  destruct (serve _ _ _ (POST_start_interview _) initial_world) as [p0 w1].
  destruct (serve _ _ _ (POST_continue_interview _) w1) as [p1 w2].
  destruct (serve _ _ _ (POST_continue_interview _) w2) as [p2 w3].
  destruct (serve _ _ _ (POST_continue_interview _) w3) as [p3 w4].
  destruct (serve _ _ _ (POST_continue_interview _) w4) as [p4 w5].
  destruct H as (K1 & K2 & _).
  split; [exact K1|]. rewrite K2, K1. reflexivity.
Defined.

(** X9 at the first turn of the completed example. *)
Lemma prompts_embed_every_turn_witness :
  let c := completed_world.(interview_context) in
  In {| role := User; text := lit "headache" |} c.(conversation_history)
  /\ contains (report_task_of c).(description) (lit "User: headache").
Proof.
  cbv zeta.
  assert (Hin : In {| role := User; text := lit "headache" |}
                   completed_world.(interview_context).(conversation_history))
    by (vm_compute; left; reflexivity).
  split; [exact Hin|].
  exact (proj1 (@prompts_embed_every_turn
                  completed_world.(interview_context) onset_course
                  {| role := User; text := lit "headache" |} Hin)).
Defined.

(** X10 at the fifth answer of the example. *)
Lemma get_report_asks_again_with_the_notice_witness :
  let model := model_answers (lit "Can you tell me more?") in
  let request := POST_continue_interview (json_body "user_response" (lit "some nausea")) in
  let w' :=
    snd (serve model sample_json_loads sample_jsonify_error request
           interviewing_world) in
  let later := snd (serve model sample_json_loads sample_jsonify_error GET_get_report w') in
  (5 <= user_turn_count
          (answered interviewing_world.(interview_context) (lit "some nausea")))%Z
  /\ length later.(kickoffs) = 5%nat
  /\ (nth 4 later.(kickoffs) (report_task [])).(description)
     <> (nth 3 later.(kickoffs) (report_task [])).(description).
Proof.
  cbv zeta. split; [vm_compute; discriminate|].
  destruct (@get_report_asks_again_with_the_notice
              (model_answers (lit "Can you tell me more?")) sample_json_loads
              sample_jsonify_error
              (json_body "user_response" (lit "some nausea")) (lit "some nausea")
              interviewing_world eq_refl
              (carries_json_body "user_response" (lit "some nausea"))
              ltac:(nonempty) ltac:(vm_compute; discriminate))
    as (_ & Hfirst & Hlater & _ & _ & Hdiff).
  rewrite Hlater, Hfirst. split; [reflexivity|]. exact Hdiff.
Defined.

(** X11 at an empty object fenced on one line. *)
Lemma short_fenced_answer_keeps_its_fence_witness :
  let out := fence ++ lit "{}" ++ fence in
  startswith (strip out) fence && endswith (strip out) fence = true
  /\ generate_report (model_answers out) sample_json_loads
       completed_world.(interview_context) completed_world
     = (Return (report_failure (lit "list index out of range")),
        logged (report_task_of completed_world.(interview_context)) completed_world).
Proof.
  cbv zeta. split; [reflexivity|].
  apply (proj1 (@short_fenced_answer_keeps_its_fence
                  (model_answers (fence ++ lit "{}" ++ fence)) sample_json_loads
                  completed_world.(interview_context) completed_world
                  (fence ++ lit "{}" ++ fence) eq_refl eq_refl eq_refl)).
  vm_compute. intuition discriminate.
Defined.

(** X13 at the fifth answer of the example, with a model whose report is a
    document of 993 lists one inside the other: the answer is read and the
    reply is a 500. *)
Lemma continue_interview_status_witness :
  let model := model_answers (brackets 992) in
  let request := POST_continue_interview (json_body "user_response" (lit "some nausea")) in
  interviewing_world.(interview_context).(is_complete) = false
  /\ strip (lit "some nausea") <> []
  /\ (fst (serve model bracket_json_loads sample_jsonify_error request
             interviewing_world)).(status) = 500%Z.
Proof.
  cbv zeta. split; [reflexivity|]. split; [nonempty|].
  apply (proj2 (proj2 (@continue_interview_status
                         (model_answers (brackets 992)) bracket_json_loads
                         sample_jsonify_error
                         (json_body "user_response" (lit "some nausea"))
                         interviewing_world eq_refl))).
  right. exists (lit "some nausea").
  exists (lit "maximum recursion depth exceeded while encoding a JSON object").
  split; [exact (carries_json_body "user_response" (lit "some nausea"))|].
  split; [nonempty|]. vm_compute. reflexivity.
Defined.
